(** * Holiday and lunar-date classification of the Korean calendar component

    A shallow embedding of the classification logic of
    [src/components/Calendar.tsx]: the lunar marker ([getLunarDate]), the
    lunar holiday spans ([getLunarHolidayInfo]), the substitution groups
    ([getHolidaySubstituteType]), the substitute-holiday search
    ([isDateHoliday], [findNextWorkday], [checkForSubstituteHoliday],
    [getSubstituteHolidayInfo]) and the aggregator ([getAllHolidayInfo]).

    The two external packages the component imports are parameters of the
    development: the solar-to-lunar converter ([korean-lunar-calendar]) and
    the holiday source ([date-holidays]). *)

From Stdlib Require Import ZArith String Ascii List Bool Lia.
From Stdlib Require Import Numbers.DecimalString Numbers.DecimalZ.
From Stdlib Require Numbers.DecimalPos Numbers.DecimalFacts.
From stdpp Require Import base option list gmap strings.

Local Open Scope string_scope.
Local Open Scope Z_scope.

(** ** JavaScript strings

    Names are byte strings holding the UTF-8 encoding of the source's
    literals.  UTF-8 is self-synchronising, so a substring test on the bytes
    of well-formed text agrees with [String.prototype.includes] on the UTF-16
    code units. *)
Module JsString.

(** [s.includes(needle)] *)
Fixpoint includes (s needle : string) : bool :=
  String.prefix needle s ||
  match s with
  | EmptyString => false
  | String _ rest => includes rest needle
  end.

(** [`${n}`] for an integer-valued number (below 10^21 in magnitude, where
    JavaScript still prints every digit) *)
Definition numToString (n : Z) : string :=
  NilZero.string_of_int (Z.to_int n).

(** a string in a boolean position: the empty string is falsy *)
Definition truthy (s : string) : bool :=
  match s with
  | EmptyString => false
  | String _ _ => true
  end.

(** the character of a decimal digit *)
Definition charOfDigit (d : DecimalFacts.digits) : ascii :=
  match d with
  | DecimalFacts.d0 => "0" | DecimalFacts.d1 => "1" | DecimalFacts.d2 => "2"
  | DecimalFacts.d3 => "3" | DecimalFacts.d4 => "4" | DecimalFacts.d5 => "5"
  | DecimalFacts.d6 => "6" | DecimalFacts.d7 => "7" | DecimalFacts.d8 => "8"
  | DecimalFacts.d9 => "9"
  end%char.

(** A character other than the dash. *)
Definition notDash (c : ascii) : bool := negb (Ascii.eqb c "-").

Fixpoint dashFree (s : string) : bool :=
  match s with
  | EmptyString => true
  | String c rest => notDash c && dashFree rest
  end.

End JsString.

(** ** JavaScript dates

    Every [Date] the component builds is a local midnight
    ([new Date(y, m, d)], [setDate] on such a value, or a parsed
    ["YYYY-MM-DD 00:00:00"] of the holiday source), so a [Date] is modelled
    by its day number: the count of calendar days since 1970-01-01.  The
    functions below are the day-level algorithms of ECMA-262 (section
    "Time Values and Time Range"), over unbounded integers: arguments are
    integers within the range of [Date], and the local time zone has no
    change of offset at midnight. *)
Module JsDate.

Definition Date := Z.

Definition DaysInYear (y : Z) : Z :=
  if negb (y mod 4 =? 0) then 365
  else if negb (y mod 100 =? 0) then 366
  else if negb (y mod 400 =? 0) then 365
  else 366.

Definition DayFromYear (y : Z) : Z :=
  365 * (y - 1970) + (y - 1969) / 4 - (y - 1901) / 100 + (y - 1601) / 400.

(** The largest [y] with [DayFromYear y <= t], computed from the mean
    length of the Gregorian year and corrected by at most one year
    (see [YearFromTime_spec]). *)
Definition YearFromTime (t : Date) : Z :=
  let y := 1970 + (400 * t) / 146097 in
  if DayFromYear (y + 1) <=? t then y + 1
  else if DayFromYear y <=? t then y
  else y - 1.

Definition leapDay (y : Z) : Z := if DaysInYear y =? 366 then 1 else 0.

Definition InLeapYear (t : Date) : Z := leapDay (YearFromTime t).

Definition DayWithinYear (t : Date) : Z := t - DayFromYear (YearFromTime t).

(** day within the year of the first day of month [m] (0-based) *)
Definition monthStart (leap m : Z) : Z :=
  match m with
  | 0 => 0
  | 1 => 31
  | 2 => 59 + leap
  | 3 => 90 + leap
  | 4 => 120 + leap
  | 5 => 151 + leap
  | 6 => 181 + leap
  | 7 => 212 + leap
  | 8 => 243 + leap
  | 9 => 273 + leap
  | 10 => 304 + leap
  | _ => 334 + leap
  end.

Definition MonthFromTime (t : Date) : Z :=
  let d := DayWithinYear t in
  let leap := InLeapYear t in
  if d <? 31 then 0
  else if d <? 59 + leap then 1
  else if d <? 90 + leap then 2
  else if d <? 120 + leap then 3
  else if d <? 151 + leap then 4
  else if d <? 181 + leap then 5
  else if d <? 212 + leap then 6
  else if d <? 243 + leap then 7
  else if d <? 273 + leap then 8
  else if d <? 304 + leap then 9
  else if d <? 334 + leap then 10
  else 11.

Definition DateFromTime (t : Date) : Z :=
  DayWithinYear t - monthStart (InLeapYear t) (MonthFromTime t) + 1.

Definition WeekDay (t : Date) : Z := (t + 4) mod 7.

Definition MakeDay (year month date : Z) : Date :=
  let ym := year + month / 12 in
  let mn := month mod 12 in
  DayFromYear ym + monthStart (leapDay ym) mn + date - 1.

(** [new Date(year, monthIndex, day)]; years 0..99 mean 1900..1999 *)
Definition mkDate (year monthIndex day : Z) : Date :=
  let yr := if (0 <=? year) && (year <=? 99) then 1900 + year else year in
  MakeDay yr monthIndex day.

Definition getFullYear (t : Date) : Z := YearFromTime t.
Definition getMonth (t : Date) : Z := MonthFromTime t.
Definition getDate (t : Date) : Z := DateFromTime t.
Definition getDay (t : Date) : Z := WeekDay t.

(** [t.setDate(n)], as the new value of [t] *)
Definition setDate (t : Date) (n : Z) : Date :=
  MakeDay (YearFromTime t) (MonthFromTime t) n.

(** [t.toDateString()]: weekday, month, day of month and year *)
Definition toDateString (t : Date) : Z * Z * Z * Z :=
  (getDay t, getMonth t, getDate t, getFullYear t).

(** [a.toDateString() === b.toDateString()] *)
Definition sameDateString (a b : Date) : bool :=
  bool_decide (toDateString a = toDateString b).

(** days of month [m] (1-based) in year [y] *)
Definition daysInMonth (y m : Z) : Z :=
  match m with
  | 2 => 28 + leapDay y
  | 4 | 6 | 9 | 11 => 30
  | _ => 31
  end.

(** a calendar date that the [Date] constructor takes at face value *)
Definition validDate (y m d : Z) : bool :=
  negb ((0 <=? y) && (y <=? 99)) &&
  (1 <=? m) && (m <=? 12) && (1 <=? d) && (d <=? daysInMonth y m).

End JsDate.


(** ** Data of the component *)

(** [LunarDate] of [types/lunar-calendar.d.ts] *)
Record LunarDate := {
  l_year : Z;
  l_month : Z;
  l_day : Z;
  intercalation : bool
}.

(** An entry of the holiday source, [{date: string, name: string,
    substitute?: boolean}].  [h_date] is the [Date] that
    [new Date(holiday.date)] evaluates to, the string being a well-formed
    local date. *)
Record Holiday := {
  h_date : JsDate.Date;
  h_name : string;
  h_substitute : option bool
}.

(** ['normal' | 'substitute' | 'lunar_new_year' | 'chuseok' | ''] *)
Inductive HolidayType :=
| TNormal
| TSubstitute
| TLunarNewYear
| TChuseok
| TEmpty.

(** ['full' | 'sunday_only' | 'none'] *)
Inductive SubstituteType :=
| Full
| SundayOnly
| NoSubstitute.

(** [{ name, type }], the result of [getLunarHolidayInfo] and of
    [getSubstituteHolidayInfo] *)
Record HolidayInfo := {
  hi_name : string;
  hi_type : HolidayType
}.

(** [{ name, type }], an element of [holidaysOnDate] *)
Record TaggedHoliday := {
  th_name : string;
  th_type : SubstituteType
}.

(** [{ name, names, type }], the result of [getAllHolidayInfo] *)
Record AllHolidayInfo := {
  a_name : string;
  a_names : list string;
  a_type : HolidayType
}.

(** How a call ends: with a value, with an exception that nothing catches,
    or not within the given number of loop iterations. *)
Inductive Outcome (A : Type) :=
| Returned (a : A)
| Thrown
| OutOfFuel.
Arguments Returned {A} a.
Arguments Thrown {A}.
Arguments OutOfFuel {A}.

#[global] Instance HolidayType_eq_dec : EqDecision HolidayType.
Proof. solve_decision. Defined.
#[global] Instance SubstituteType_eq_dec : EqDecision SubstituteType.
Proof. solve_decision. Defined.
#[global] Instance HolidayInfo_eq_dec : EqDecision HolidayInfo.
Proof. solve_decision. Defined.

(** The holiday names the source tests for. *)
Module Names.
Definition Seollal := "설날".
Definition SeollalHoliday := "설날 연휴".
Definition Chuseok := "추석".
Definition ChuseokHoliday := "추석 연휴".
Definition ConstitutionDay := "제헌절".
Definition NewYearsDay := "신정".
Definition SubstituteHoliday := "대체공휴일".
Definition LunarPrefix := "음 ".
End Names.

(** ** The classification functions of [Calendar.tsx] *)
Module Calendar.
Import JsString JsDate Names.

Section Engine.

(** [new KoreanLunarCalendar()], [setSolarDate(year, month, day)] and
    [getLunarCalendar()] in one step; [None] when the package throws. *)
Variable toLunar : Z -> Z -> Z -> option LunarDate.

(** [holidays.getHolidays(year)]; [None] when the package throws. *)
Variable getHolidays : Z -> option (list Holiday).

(** The conversion of a [Date], as every probe of a neighbouring day does
    it: [setSolarDate(t.getFullYear(), t.getMonth() + 1, t.getDate())]. *)
Definition lunarOfDate (t : Date) : option LunarDate :=
  toLunar (getFullYear t) (getMonth t + 1) (getDate t).

(** [`${year}-${month}-${day}`] *)
Definition cacheKey (year month day : Z) : string :=
  numToString year +:+ "-" +:+ numToString month +:+ "-" +:+ numToString day.

(** [`음 ${lunarMonth}.${lunarDay}`] *)
Definition lunarLabel (lunarMonth lunarDay : Z) : string :=
  LunarPrefix +:+ numToString lunarMonth +:+ "." +:+ numToString lunarDay.

(** The [try] block of [getLunarDate] with its [catch]: what is stored in
    the cache and returned on a miss. *)
Definition computeLunarDate (year month day : Z) : string :=
  match toLunar year month day with
  | None => ""
  | Some lunarDate =>
      let lunarDay := l_day lunarDate in
      let lunarMonth := l_month lunarDate in
      if (lunarDay =? 1) || (lunarDay =? 15) then lunarLabel lunarMonth lunarDay
      else
        let nextDay := mkDate year (month - 1) (day + 1) in
        match lunarOfDate nextDay with
        | Some nextLunarDate =>
            if l_day nextLunarDate =? 1 then lunarLabel lunarMonth lunarDay
            else ""
        | None => ""
        end
  end.

(** [getLunarDate], threading [lunarCache.current] *)
Definition getLunarDate (lunarCache : gmap string string) (year month day : Z)
  : gmap string string * string :=
  match lunarCache !! cacheKey year month day with
  | Some cached => (lunarCache, cached)
  | None =>
      let result := computeLunarDate year month day in
      (<[cacheKey year month day := result]> lunarCache, result)
  end.

Definition noLunarHoliday : HolidayInfo := {| hi_name := ""; hi_type := TEmpty |}.

(** a guarded probe: is the neighbouring day lunar 1.1?  A failing
    conversion falls through its empty [catch]. *)
Definition probeNewYear (t : Date) : bool :=
  match lunarOfDate t with
  | Some l => (l_month l =? 1) && (l_day l =? 1)
  | None => false
  end.

Definition getLunarHolidayInfo (year month day : Z) : HolidayInfo :=
  match toLunar year month day with
  | None => noLunarHoliday
  | Some lunarDate =>
      if (l_month lunarDate =? 1) && (l_day lunarDate =? 1) then
        {| hi_name := Seollal; hi_type := TLunarNewYear |}
      else if probeNewYear (mkDate year (month - 1) (day + 1)) then
        {| hi_name := SeollalHoliday; hi_type := TLunarNewYear |}
      else if probeNewYear (mkDate year (month - 1) (day - 1)) then
        {| hi_name := SeollalHoliday; hi_type := TLunarNewYear |}
      else if (l_month lunarDate =? 8) &&
              ((l_day lunarDate =? 14) || (l_day lunarDate =? 15) || (l_day lunarDate =? 16)) then
        if l_day lunarDate =? 15 then {| hi_name := Chuseok; hi_type := TChuseok |}
        else {| hi_name := ChuseokHoliday; hi_type := TChuseok |}
      else noLunarHoliday
  end.

Definition group1Holidays : list string :=
  ["삼일절"; "3·1절"; "광복절"; "개천절"; "한글날"; "어린이날"].
Definition group2Holidays : list string := ["설날"; "추석"].
Definition group3Holidays : list string :=
  ["신정"; "부처님 오신날"; "현충일"; "기독탄신일"; "성탄절"].

Definition getHolidaySubstituteType (holidayName : string) : SubstituteType :=
  if existsb (fun h => includes holidayName h) group1Holidays then Full
  else if existsb (fun h => includes holidayName h) group2Holidays then SundayOnly
  else if existsb (fun h => includes holidayName h) group3Holidays then NoSubstitute
  else NoSubstitute.

(** the lunar holiday of a [Date]:
    [getLunarHolidayInfo(d.getFullYear(), d.getMonth() + 1, d.getDate())] *)
Definition lunarInfoOf (date : Date) : HolidayInfo :=
  getLunarHolidayInfo (getFullYear date) (getMonth date + 1) (getDate date).

(** the [for] loop of [isDateHoliday]: [true] when it returns from inside *)
Fixpoint isDateHoliday_loop (date : Date) (holidayList : list Holiday) : bool :=
  match holidayList with
  | [] => false
  | holiday :: rest =>
      if sameDateString (h_date holiday) date then
        if includes (h_name holiday) ConstitutionDay then isDateHoliday_loop date rest
        else true
      else isDateHoliday_loop date rest
  end.

Definition isDateHoliday (date : Date) (holidayList : list Holiday) : bool :=
  if isDateHoliday_loop date holidayList then true
  else negb (String.eqb (hi_name (lunarInfoOf date)) "").

(** the [while (true)] loop of [findNextWorkday]; one unit of fuel per
    iteration, [None] when the fuel runs out *)
Fixpoint findNextWorkday_loop (fuel : nat) (nextDay : Date) (holidayList : list Holiday)
  : option Date :=
  match fuel with
  | O => None
  | S fuel' =>
      let dayOfWeek := getDay nextDay in
      if (dayOfWeek =? 0) || (dayOfWeek =? 6) then
        findNextWorkday_loop fuel' (setDate nextDay (getDate nextDay + 1)) holidayList
      else if negb (isDateHoliday nextDay holidayList) then Some nextDay
      else findNextWorkday_loop fuel' (setDate nextDay (getDate nextDay + 1)) holidayList
  end.

Definition findNextWorkday (fuel : nat) (fromDate : Date) (holidayList : list Holiday)
  : option Date :=
  findNextWorkday_loop fuel (setDate fromDate (getDate fromDate + 1)) holidayList.

(** the first loop of [checkForSubstituteHoliday] *)
Fixpoint sourceHolidaysOn (originalDate : Date) (holidayList : list Holiday)
  : list TaggedHoliday :=
  match holidayList with
  | [] => []
  | holiday :: rest =>
      if sameDateString (h_date holiday) originalDate then
        if includes (h_name holiday) ConstitutionDay then sourceHolidaysOn originalDate rest
        else {| th_name := h_name holiday;
                th_type := getHolidaySubstituteType (h_name holiday) |}
             :: sourceHolidaysOn originalDate rest
      else sourceHolidaysOn originalDate rest
  end.

(** [holidaysOnDate] once both sources are collected *)
Definition holidaysOnDate (originalDate : Date) (holidayList : list Holiday)
  : list TaggedHoliday :=
  let lunarInfo := lunarInfoOf originalDate in
  sourceHolidaysOn originalDate holidayList ++
  (if truthy (hi_name lunarInfo) then
     [{| th_name := hi_name lunarInfo;
         th_type := getHolidaySubstituteType (hi_name lunarInfo) |}]
   else []).

(** the callback of [holidaysOnDate.some(h => ...)] *)
Definition requiresSubstitute (originalDayOfWeek : Z) (holidaysOnDate : list TaggedHoliday)
  (h : TaggedHoliday) : bool :=
  match th_type h with
  | NoSubstitute => false
  | Full =>
      (originalDayOfWeek =? 0) || (originalDayOfWeek =? 6) ||
      (1 <? Z.of_nat (List.length holidaysOnDate))
  | SundayOnly =>
      if originalDayOfWeek =? 0 then true
      else if 1 <? Z.of_nat (List.length holidaysOnDate) then
        existsb (fun other => negb (includes (th_name other) Seollal) &&
                              negb (includes (th_name other) Chuseok))
                holidaysOnDate
      else false
  end.

Definition shouldCreateSubstitute (originalDayOfWeek : Z)
  (holidaysOnDate : list TaggedHoliday) : bool :=
  existsb (requiresSubstitute originalDayOfWeek holidaysOnDate) holidaysOnDate.

(** [checkForSubstituteHoliday(...).isSubstitute] *)
Definition checkForSubstituteHoliday (fuel : nat) (originalDate targetDate : Date)
  (holidayList : list Holiday) : option bool :=
  let originalDayOfWeek := getDay originalDate in
  let onDate := holidaysOnDate originalDate holidayList in
  if (Z.of_nat (List.length onDate) =? 0) then Some false
  else if negb (shouldCreateSubstitute originalDayOfWeek onDate) then Some false
  else
    match findNextWorkday fuel originalDate holidayList with
    | Some nextWorkday => Some (sameDateString nextWorkday targetDate)
    | None => None
    end.

Definition substituteFound : HolidayInfo :=
  {| hi_name := SubstituteHoliday; hi_type := TSubstitute |}.

(** the [for (let daysBack = 1; daysBack <= 7; daysBack++)] loop, entered
    with [daysBack] and [8 - daysBack = remaining] iterations to go *)
Fixpoint lookBack (fuel : nat) (remaining : nat) (daysBack : Z) (targetDate : Date)
  (holidayList : list Holiday) : option HolidayInfo :=
  match remaining with
  | O => Some noLunarHoliday
  | S remaining' =>
      let checkDate := setDate targetDate (getDate targetDate - daysBack) in
      match checkForSubstituteHoliday fuel checkDate targetDate holidayList with
      | None => None
      | Some true => Some substituteFound
      | Some false => lookBack fuel remaining' (daysBack + 1) targetDate holidayList
      end
  end.

Definition getSubstituteHolidayInfo (fuel : nat) (year month day : Z)
  (holidayList : list Holiday) : option HolidayInfo :=
  let targetDate := mkDate year (month - 1) day in
  let dayOfWeek := getDay targetDate in
  if (dayOfWeek <? 1) || (5 <? dayOfWeek) then Some noLunarHoliday
  else if isDateHoliday targetDate holidayList then Some noLunarHoliday
  else lookBack fuel 7 1 targetDate holidayList.

(** [uniqueHolidays.add(x)] on an insertion-ordered [Set] *)
Definition setAdd (s : list string) (x : string) : list string :=
  if existsb (String.eqb x) s then s else s ++ [x].

(** the guarded test of the misdated-Chuseok filter: the converter is asked
    about the arguments of [getAllHolidayInfo] themselves *)
Definition lunarNinthMonthSpan (year month day : Z) : bool :=
  match toLunar year month day with
  | Some lunarDate =>
      (l_month lunarDate =? 9) &&
      ((l_day lunarDate =? 14) || (l_day lunarDate =? 15) || (l_day lunarDate =? 16))
  | None => false
  end.

(** the type a source entry gives to a day that has none yet *)
Definition sourceType (holiday : Holiday) : HolidayType :=
  if default false (h_substitute holiday) then TSubstitute
  else if includes (h_name holiday) Seollal || includes (h_name holiday) NewYearsDay
  then TLunarNewYear
  else if includes (h_name holiday) Chuseok then TChuseok
  else TNormal.

(** one iteration of the first loop of [getAllHolidayInfo], on the pair
    [(uniqueHolidays, primaryHolidayType)] *)
Definition collectStep (year month day : Z) (targetDate : Date)
  (st : list string * HolidayType) (holiday : Holiday) : list string * HolidayType :=
  if sameDateString (h_date holiday) targetDate then
    if includes (h_name holiday) ConstitutionDay then st
    else if includes (h_name holiday) Chuseok && lunarNinthMonthSpan year month day then st
    else (setAdd (fst st) (h_name holiday),
          match snd st with
          | TEmpty => sourceType holiday
          | ty => ty
          end)
  else st.

(** the second block: the lunar holiday joins unless a name of its family
    is there already *)
Definition addLunar (lunarHolidayInfo : HolidayInfo) (st : list string * HolidayType)
  : list string * HolidayType :=
  if truthy (hi_name lunarHolidayInfo) then
    let hasSimilarHoliday :=
      existsb (fun h =>
                 (includes h Chuseok && includes (hi_name lunarHolidayInfo) Chuseok) ||
                 (includes h Seollal && includes (hi_name lunarHolidayInfo) Seollal))
              (fst st) in
    if negb hasSimilarHoliday then
      (setAdd (fst st) (hi_name lunarHolidayInfo),
       match snd st with
       | TEmpty => hi_type lunarHolidayInfo
       | ty => ty
       end)
    else st
  else st.

(** [allHolidays[0] || ''] *)
Definition firstName (allHolidays : list string) : string :=
  match allHolidays with
  | [] => ""
  | n :: _ => n
  end.

Definition finish (st : list string * HolidayType) : AllHolidayInfo :=
  {| a_name := firstName (fst st); a_names := fst st; a_type := snd st |}.

(** [getAllHolidayInfo] from the line that binds [holidayList] on *)
Definition classifyWith (fuel : nat) (holidayList : list Holiday) (year month day : Z)
  : option AllHolidayInfo :=
  let targetDate := mkDate year (month - 1) day in
  let st1 := fold_left (collectStep year month day targetDate) holidayList ([], TEmpty) in
  let st2 := addLunar (getLunarHolidayInfo year month day) st1 in
  if Z.of_nat (List.length (fst st2)) =? 0 then
    match getSubstituteHolidayInfo fuel year month day holidayList with
    | None => None
    | Some substituteInfo =>
        if truthy (hi_name substituteInfo) then
          Some (finish (setAdd (fst st2) (hi_name substituteInfo), hi_type substituteInfo))
        else Some (finish st2)
    end
  else Some (finish st2).

(** what a caller sees of a run of the body *)
Definition ranFor {A : Type} (o : option A) : Outcome A :=
  match o with
  | Some a => Returned a
  | None => OutOfFuel
  end.

(** [getAllHolidayInfo], threading [holidayCache.current]: the list is the
    cached one, or else the fetched one, which is stored first; a source
    that throws is not caught *)
Definition getAllHolidayInfo (fuel : nat) (holidayCache : gmap Z (list Holiday))
  (year month day : Z) : gmap Z (list Holiday) * Outcome AllHolidayInfo :=
  match holidayCache !! year with
  | Some holidayList =>
      (holidayCache, ranFor (classifyWith fuel holidayList year month day))
  | None =>
      match getHolidays year with
      | Some fetched =>
          (<[year := fetched]> holidayCache,
           ranFor (classifyWith fuel fetched year month day))
      | None => (holidayCache, Thrown)
      end
  end.

(** The entries that reach [uniqueHolidays.add] in the first loop of
    [getAllHolidayInfo]: those of the day that neither [continue]
    skips. *)
Definition contributes (year month day : Z) (targetDate : Date) (holiday : Holiday) : bool :=
  sameDateString (h_date holiday) targetDate &&
  negb (includes (h_name holiday) ConstitutionDay) &&
  negb (includes (h_name holiday) Chuseok && lunarNinthMonthSpan year month day).

Definition seedEntries (year month day : Z) (holidayList : list Holiday) : list Holiday :=
  List.filter (contributes year month day (mkDate year (month - 1) day)) holidayList.

(** the body of the first loop past its two [continue]s *)
Definition takeStep (st : list string * HolidayType) (holiday : Holiday)
  : list string * HolidayType :=
  (setAdd (fst st) (h_name holiday),
   match snd st with
   | TEmpty => sourceType holiday
   | ty => ty
   end).

(** [hasSimilarHoliday]: a name of the family of [lunarName] is among
    [names] *)
Definition similarIn (names : list string) (lunarName : string) : bool :=
  existsb (fun h => (includes h Chuseok && includes lunarName Chuseok) ||
                    (includes h Seollal && includes lunarName Seollal)) names.

(** the result for a day without any holiday *)
Definition emptyClassification : AllHolidayInfo :=
  {| a_name := ""; a_names := []; a_type := TEmpty |}.

(** a holiday list without the entries named after Constitution Day *)
Definition dropConstitutionDay (holidayList : list Holiday) : list Holiday :=
  List.filter (fun h => negb (includes (h_name h) ConstitutionDay)) holidayList.

(** The caches hold what a miss would compute: every state reached from
    empty caches satisfies these (see [getLunarDate_ok] and
    [getAllHolidayInfo_ok]). *)
Definition lunarCacheOk (lunarCache : gmap string string) : Prop :=
  forall year month day cached,
    lunarCache !! cacheKey year month day = Some cached ->
    cached = computeLunarDate year month day.

Definition holidayCacheOk (holidayCache : gmap Z (list Holiday)) : Prop :=
  forall year holidayList,
    holidayCache !! year = Some holidayList -> getHolidays year = Some holidayList.

End Engine.
End Calendar.

(** ** The component in the words of its specification

    Second definitions, written from the specification's sentences, that
    the functions above are compared with. *)
Module Spec.
Import JsString JsDate Names Calendar.

Section Words.

Variable toLunar : Z -> Z -> Z -> option LunarDate.


(** "rules, evaluated in order, first match wins" *)
Fixpoint firstMatch {A : Type} (rules : list (bool * A)) (otherwise : A) : A :=
  match rules with
  | [] => otherwise
  | (true, a) :: _ => a
  | (false, _) :: rest => firstMatch rest otherwise
  end.



(** "[t] is the last day of its lunar month": the next day converts to
    lunar day 1 *)
Definition lastOfLunarMonth (t : Date) : Prop :=
  exists next, lunarOfDate toLunar (t + 1) = Some next /\ l_day next = 1.

(** the days the Lunar Marker Resolver labels *)
Definition marked (l : LunarDate) (t : Date) : Prop :=
  l_day l = 1 \/ l_day l = 15 \/ lastOfLunarMonth t.

(** a Lunar New Year or Harvest Festival family name *)
Definition lunarFamily (name : string) : Prop :=
  includes name Seollal = true \/ includes name Chuseok = true.

(** the group rule of one entry [h] among the holidays [hs] of a day
    whose weekday is [dow] (0 Sunday .. 6 Saturday) *)
Definition requiredBy (dow : Z) (hs : list TaggedHoliday) (h : TaggedHoliday) : Prop :=
  (th_type h = Full /\ (dow = 6 \/ dow = 0 \/ (1 < List.length hs)%nat)) \/
  (th_type h = SundayOnly /\
   (dow = 0 \/
    ((1 < List.length hs)%nat /\ exists other, In other hs /\ ~ lunarFamily (th_name other)))).

Definition substitutionRequired (dow : Z) (hs : list TaggedHoliday) : Prop :=
  exists h, In h hs /\ requiredBy dow hs h.

(** a Monday-to-Friday day on which the search collects no holiday,
    neither from the source nor from the lunar spans *)
Definition ordinaryWeekday (holidayList : list Holiday) (t : Date) : Prop :=
  1 <= getDay t <= 5 /\ holidaysOnDate toLunar t holidayList = [].

(** "the next workday after [origin]": the first ordinary weekday met
    when walking forward one day at a time *)
Definition nextWorkdayIs (holidayList : list Holiday) (origin t : Date) : Prop :=
  origin < t /\ ordinaryWeekday holidayList t /\
  forall u, origin < u < t -> ~ ordinaryWeekday holidayList u.


(** the primary type the Aggregator's first step is said to give a seed
    entry *)
Definition claimedSeedType (h : Holiday) : HolidayType :=
  if default false (h_substitute h) then TSubstitute
  else if includes (h_name h) Seollal then TLunarNewYear
  else if includes (h_name h) Chuseok then TChuseok
  else TNormal.

(** an entry the cleaning of the Holiday Source Adapter is said to drop:
    the retired Constitution Day, or a Harvest Festival entry whose day
    converts to a lunar month other than 8 *)
Definition claimedDropped (h : Holiday) : bool :=
  includes (h_name h) ConstitutionDay ||
  (includes (h_name h) Chuseok &&
   match lunarOfDate toLunar (h_date h) with
   | Some l => negb (l_month l =? 8)
   | None => false
   end).

(** "all cleaned entries whose solar date equals [t]" *)
Definition cleanedOn (t : Date) (holidayList : list Holiday) : list Holiday :=
  List.filter (fun h => sameDateString (h_date h) t && negb (claimedDropped h)) holidayList.


(** The SubstitutionGroup, "a static property of a holiday's name".  The
    national-observance holidays that gain a substitute day (the March
    1st Movement Day in its two spellings, Liberation Day, National
    Foundation Day, Hangul Day, Children's Day) are FULL, "the two major
    lunar holidays" are SUNDAY_ONLY, and every other name is NONE. *)
Definition fullNames : list string :=
  ["삼일절"; "3·1절"; "광복절"; "개천절"; "한글날"; "어린이날"].

Definition groupOf (name : string) : SubstituteType :=
  firstMatch
    [ (existsb (includes name) fullNames, Full);
      (includes name "설날" || includes name "추석", SundayOnly) ]
    NoSubstitute.

Definition tagged (name : string) : TaggedHoliday :=
  {| th_name := name; th_type := groupOf name |}.

(** "cleaned source holidays at [t] plus the lunar holiday at [t], each
    tagged with its SubstitutionGroup"; the lunar holiday is the answer
    of the Lunar Holiday Span Resolver for the day *)
Definition holidaySetOf (t : Date) (holidayList : list Holiday) : list TaggedHoliday :=
  map (fun h => tagged (h_name h)) (cleanedOn t holidayList) ++
  (if String.eqb (hi_name (lunarInfoOf toLunar t)) "" then []
   else [tagged (hi_name (lunarInfoOf toLunar t))]).

(** a Monday-to-Friday day that "itself carries no holiday (neither a
    cleaned source holiday nor a lunar-span holiday)" *)
Definition plainWeekday (holidayList : list Holiday) (t : Date) : Prop :=
  1 <= getDay t <= 5 /\ holidaySetOf t holidayList = [].



End Words.

(** *** The text of the lunar marker *)

Definition digitChar (k : Z) : ascii := ascii_of_nat (48 + Z.to_nat k).

(** the decimal digits of a natural number, the last one first *)
Fixpoint digitsOf (fuel : nat) (n : Z) : list Z :=
  match fuel with
  | O => []
  | S fuel' => n mod 10 :: (if n <? 10 then [] else digitsOf fuel' (n / 10))
  end.

Definition digitString (n : Z) : string :=
  string_of_list_ascii (map digitChar (rev (digitsOf (S (Z.to_nat n)) n))).

(** a number written out in decimal *)
Definition decimal (n : Z) : string :=
  if n <? 0 then String "-" (digitString (- n)) else digitString n.

(** the marker of lunar month [m], day [d]: the syllable 음, a space, the
    month, a full stop, the day *)
Definition markerText (m d : Z) : string :=
  "음 " +:+ decimal m +:+ "." +:+ decimal d.

(** *** The months of the Gregorian calendar *)

Definition leapYear (y : Z) : bool :=
  (y mod 4 =? 0) && (negb (y mod 100 =? 0) || (y mod 400 =? 0)).

(** the number of days of month [m] (1 January .. 12 December) of year
    [y] *)
Definition monthLength (y m : Z) : Z :=
  if m =? 2 then (if leapYear y then 29 else 28)
  else if (m =? 4) || (m =? 6) || (m =? 9) || (m =? 11) then 30
  else 31.

End Spec.

(** ** Sample inputs: the year 2025 *)
Module Samples.
Import JsDate Names.

(** The months of the lunar year 2025 and the two months before it:
    first solar day, lunar year, lunar month, leap month. *)
Definition lunarMonths : list (Date * Z * Z * bool) :=
  [ (mkDate 2024 11 1, 2024, 11, false);
    (mkDate 2024 11 31, 2024, 12, false);
    (mkDate 2025 0 29, 2025, 1, false);
    (mkDate 2025 1 28, 2025, 2, false);
    (mkDate 2025 2 29, 2025, 3, false);
    (mkDate 2025 3 28, 2025, 4, false);
    (mkDate 2025 4 27, 2025, 5, false);
    (mkDate 2025 5 25, 2025, 6, false);
    (mkDate 2025 6 25, 2025, 6, true);
    (mkDate 2025 7 23, 2025, 7, false);
    (mkDate 2025 8 22, 2025, 8, false);
    (mkDate 2025 9 21, 2025, 9, false);
    (mkDate 2025 10 20, 2025, 10, false);
    (mkDate 2025 11 20, 2025, 11, false);
    (mkDate 2026 0 19, 2025, 12, false) ].

(** the first day of the table *)
Definition tableStart : Date := mkDate 2024 11 1.

(** the first day after the table: lunar new year 2026 *)
Definition tableEnd : Date := mkDate 2026 1 17.

Fixpoint lookupMonth (t : Date) (months : list (Date * Z * Z * bool))
  (found : LunarDate) : LunarDate :=
  match months with
  | [] => found
  | (start, ly, lm, leap) :: rest =>
      if start <=? t then
        lookupMonth t rest
          {| l_year := ly; l_month := lm; l_day := t - start + 1;
             intercalation := leap |}
      else found
  end.

(** What [getLunarCalendar()] reads from a converter object on which no
    date has been set.  [setSolarDate] of the package answers [false] on
    a triple it rejects, without throwing and without setting a date, and
    the component does not look at that answer: on a fresh object the
    lunar date it reads is this one. *)
Definition unsetDate : LunarDate :=
  {| l_year := 0; l_month := 0; l_day := 0; intercalation := false |}.

(** A converter in the manner of the package, its range cut down to the
    table: a calendar date of the table has its lunar date, every other
    triple (no calendar date, or one out of range) is rejected without a
    throw and reads as [unsetDate]. *)
Definition toLunar (year month day : Z) : option LunarDate :=
  Some (if validDate year month day then
          let t := mkDate year (month - 1) day in
          if (tableStart <=? t) && (t <? tableEnd)
          then lookupMonth t lunarMonths unsetDate
          else unsetDate
        else unsetDate).

(** A converter of the throwing kind, which the [try]/[catch] blocks of
    the component provide for: the lunar dates of the table from the day
    [first] to the day [last], a throw on every other triple. *)
Definition toLunarWithin (first last : Date) (year month day : Z) : option LunarDate :=
  if validDate year month day then
    let t := mkDate year (month - 1) day in
    if (tableStart <=? t) && (t <? tableEnd) && (first <=? t) && (t <=? last)
    then Some (lookupMonth t lunarMonths unsetDate)
    else None
  else None.


Definition entry (month day : Z) (name : string) : Holiday :=
  {| h_date := mkDate 2025 (month - 1) day; h_name := name; h_substitute := None |}.

(** A holiday list for 2025 in the manner of the source, the retired
    Constitution Day included. *)
Definition holidays2025 : list Holiday :=
  [ entry 1 1 "신정";
    entry 1 28 "설날"; entry 1 29 "설날"; entry 1 30 "설날";
    entry 3 1 "3·1절";
    entry 5 5 "어린이날"; entry 5 5 "석가탄신일";
    entry 6 6 "현충일";
    entry 7 17 "제헌절";
    entry 8 15 "광복절";
    entry 10 3 "개천절";
    entry 10 5 "추석"; entry 10 6 "추석"; entry 10 7 "추석";
    entry 10 9 "한글날";
    entry 12 25 "기독탄신일" ].

Definition getHolidays (year : Z) : option (list Holiday) :=
  if year =? 2025 then Some holidays2025 else Some [].

(** the same source but for a holiday it reports on 2024-12-31 *)
Definition getHolidaysOtherwise (year : Z) : option (list Holiday) :=
  if year =? 2025 then Some holidays2025
  else Some [ {| h_date := mkDate 2024 11 31; h_name := "광복절"; h_substitute := None |} ].

(** a source without data *)
Definition getHolidaysFailing (year : Z) : option (list Holiday) := None.

(** a source entry that is already flagged as a substitute day, here on
    Saturday 2025-03-01 *)
Definition flaggedEntry : Holiday :=
  {| h_date := mkDate 2025 2 1; h_name := "대체공휴일"; h_substitute := Some true |}.

Definition flaggedSaturday : list Holiday := [ flaggedEntry ].

(** a Harvest Festival entry on 2025-11-04, the 15th of the 9th lunar
    month *)
Definition ninthMonthChuseok : list Holiday := [ entry 11 4 "추석" ].

(** a Harvest Festival entry on 2025-09-06, the 15th of the 7th lunar
    month *)
Definition misdatedChuseok : list Holiday := [ entry 9 6 "추석" ].


(** a Harvest Festival entry on Sunday 2025-11-02, the 13th of the 9th
    lunar month *)
Definition sundayChuseok : list Holiday := [ entry 11 2 "추석" ].

End Samples.

(** ** The month grid, the zodiac and the navigation of [Calendar.tsx] *)
Module Grid.
Import JsString JsDate Names Calendar.

(** [CalendarDate], a cell of the grid *)
Record CalendarDate := {
  cd_date : Z;
  cd_isCurrentMonth : bool;
  cd_isToday : bool;
  cd_isWeekend : bool;
  cd_isSunday : bool;
  cd_lunarInfo : string;
  cd_holiday : string;
  cd_holidays : list string;
  cd_holidayType : HolidayType
}.

(** the three [useRef] caches that [generateCalendarDates] reads and
    writes: [lunarCache], [holidayCache] and [calendarCache] *)
Record Caches := {
  c_lunar : gmap string string;
  c_holiday : gmap Z (list Holiday);
  c_calendar : gmap string (list (list CalendarDate))
}.

Definition noCaches : Caches :=
  {| c_lunar := ∅; c_holiday := ∅; c_calendar := ∅ |}.

Definition getDaysInMonth (date : Date) : Z :=
  getDate (mkDate (getFullYear date) (getMonth date + 1) 0).

Definition getFirstDayOfMonth (date : Date) : Z :=
  getDay (mkDate (getFullYear date) (getMonth date) 1).

(** [`${year}-${month}`], the key of [calendarCache] and of the mobile
    window *)
Definition monthKey (year month : Z) : string :=
  numToString year +:+ "-" +:+ numToString month.

(** a cell of the previous or the next month *)
Definition otherMonthCell (day : Z) : CalendarDate :=
  {| cd_date := day; cd_isCurrentMonth := false; cd_isToday := false;
     cd_isWeekend := false; cd_isSunday := false; cd_lunarInfo := "";
     cd_holiday := ""; cd_holidays := []; cd_holidayType := TEmpty |}.

(** [for (let i = firstDay - 1; i >= 0; i--)], entered with [i + 1 = n] *)
Fixpoint leadingCells (n : nat) (prevMonthDays : Z) : list CalendarDate :=
  match n with
  | O => []
  | S i => otherMonthCell (prevMonthDays - Z.of_nat i) :: leadingCells i prevMonthDays
  end.

(** [for (let day = 1; day <= nextMonthDays; day++)], entered with [day]
    and [n] iterations to go *)
Fixpoint trailingCells (n : nat) (day : Z) : list CalendarDate :=
  match n with
  | O => []
  | S n' => otherMonthCell day :: trailingCells n' (day + 1)
  end.

(** the cell pushed for a day of the month, from what [getLunarDate] and
    [getAllHolidayInfo] returned *)
Definition currentCell (today : Date) (year month day : Z) (lunarInfo : string)
  (holidayInfo : AllHolidayInfo) : CalendarDate :=
  let currentDate := mkDate year month day in
  let dayOfWeek := getDay currentDate in
  {| cd_date := day;
     cd_isCurrentMonth := true;
     cd_isToday := sameDateString currentDate today;
     cd_isWeekend := (dayOfWeek =? 0) || (dayOfWeek =? 6);
     cd_isSunday := dayOfWeek =? 0;
     cd_lunarInfo := lunarInfo;
     cd_holiday := a_name holidayInfo;
     cd_holidays := a_names holidayInfo;
     cd_holidayType := a_type holidayInfo |}.

(** [Math.ceil(n / 7)] for a length [n] *)
Definition ceil7 (n : Z) : Z := (n + 6) / 7.

(** [for (let i = 0; i < dates.length; i += 7) weeks.push(dates.slice(i, i + 7))];
    no more iterations than cells are ever needed *)
Fixpoint groupWeeks (fuel : nat) (i : nat) (dates : list CalendarDate)
  : list (list CalendarDate) :=
  match fuel with
  | O => []
  | S fuel' =>
      if (i <? List.length dates)%nat
      then take 7 (drop i dates) :: groupWeeks fuel' (i + 7) dates
      else []
  end.

(** the three loops' cells, put in weeks *)
Definition assemble (leading current : list CalendarDate) : list (list CalendarDate) :=
  let dates := (leading ++ current)%list in
  let totalCells := ceil7 (Z.of_nat (List.length dates)) * 7 in
  let nextMonthDays := totalCells - Z.of_nat (List.length dates) in
  let all := (dates ++ trailingCells (Z.to_nat nextMonthDays) 1)%list in
  groupWeeks (List.length all) 0 all.

Section Engine.

Variable toLunar : Z -> Z -> Z -> option LunarDate.
Variable getHolidays : Z -> option (list Holiday).

(** [for (let day = 1; day <= daysInMonth; day++)], entered with [day] and
    [remaining] iterations to go; an exception of [getAllHolidayInfo] ends
    the loop and leaves the caches as they are by then *)
Fixpoint currentCells (fuel : nat) (today : Date) (year month : Z)
  (remaining : nat) (day : Z) (caches : Caches)
  : Caches * Outcome (list CalendarDate) :=
  match remaining with
  | O => (caches, Returned [])
  | S remaining' =>
      let (lunarCache', lunarInfo) :=
        getLunarDate toLunar (c_lunar caches) year (month + 1) day in
      let (holidayCache', outcome) :=
        getAllHolidayInfo toLunar getHolidays fuel (c_holiday caches) year (month + 1) day in
      let caches' :=
        {| c_lunar := lunarCache'; c_holiday := holidayCache';
           c_calendar := c_calendar caches |} in
      match outcome with
      | Returned holidayInfo =>
          match currentCells fuel today year month remaining' (day + 1) caches' with
          | (caches'', Returned cells) =>
              (caches'',
               Returned (currentCell today year month day lunarInfo holidayInfo :: cells))
          | failed => failed
          end
      | Thrown => (caches', Thrown)
      | OutOfFuel => (caches', OutOfFuel)
      end
  end.

(** [generateCalendarDates(date)], with [today] for [new Date()] *)
Definition generateCalendarDates (fuel : nat) (today : Date) (caches : Caches)
  (date : Date) : Caches * Outcome (list (list CalendarDate)) :=
  let year := getFullYear date in
  let month := getMonth date in
  let cacheKey := monthKey year month in
  match c_calendar caches !! cacheKey with
  | Some weeks => (caches, Returned weeks)
  | None =>
      let daysInMonth := getDaysInMonth date in
      let firstDay := getFirstDayOfMonth date in
      let prevMonth := mkDate year (month - 1) 0 in
      let prevMonthDays := getDate prevMonth in
      let leading := leadingCells (Z.to_nat firstDay) prevMonthDays in
      match currentCells fuel today year month (Z.to_nat daysInMonth) 1 caches with
      | (caches', Returned current) =>
          let weeks := assemble leading current in
          ({| c_lunar := c_lunar caches'; c_holiday := c_holiday caches';
              c_calendar := <[cacheKey := weeks]> (c_calendar caches') |},
           Returned weeks)
      | (caches', Thrown) => (caches', Thrown)
      | (caches', OutOfFuel) => (caches', OutOfFuel)
      end
  end.

(** The cell of a day as a function of the inputs alone: what the loop
    pushes when the caches are consistent and the year's holiday list is
    [holidayList]. *)
Definition dayCell (today : Date) (holidayList : list Holiday) (year month day : Z)
  : CalendarDate :=
  currentCell today year month day
    (computeLunarDate toLunar year (month + 1) day)
    (default emptyClassification (classifyWith toLunar 7 holidayList year (month + 1) day)).

(** The grid of the month of [date] as a function of the inputs alone. *)
Definition monthGrid (today : Date) (holidayList : list Holiday) (date : Date)
  : list (list CalendarDate) :=
  let year := getFullYear date in
  let month := getMonth date in
  assemble
    (leadingCells (Z.to_nat (getFirstDayOfMonth date)) (getDate (mkDate year (month - 1) 0)))
    (map (dayCell today holidayList year month) (seqZ 1 (getDaysInMonth date))).

(** The caches of a component that has made the [calls] to
    [getLunarDate], or to [getAllHolidayInfo], since it was mounted. *)
Definition lunarCacheAfter (calls : list (Z * Z * Z)) : gmap string string :=
  fold_left (fun lunarCache '(year, month, day) =>
               fst (getLunarDate toLunar lunarCache year month day))
            calls ∅.

Definition holidayCacheAfter (fuel : nat) (calls : list (Z * Z * Z))
  : gmap Z (list Holiday) :=
  fold_left (fun holidayCache '(year, month, day) =>
               fst (getAllHolidayInfo toLunar getHolidays fuel holidayCache year month day))
            calls ∅.

(** The consistency of the three caches: the first two as before, and
    every grid cached for a month is the grid of that month, built on some
    day. *)
Definition cachesOk (caches : Caches) : Prop :=
  lunarCacheOk toLunar (c_lunar caches) /\
  holidayCacheOk getHolidays (c_holiday caches) /\
  forall date weeks,
    c_calendar caches !! monthKey (getFullYear date) (getMonth date) = Some weeks ->
    exists builtOn holidayList,
      getHolidays (getFullYear date) = Some holidayList /\
      weeks = monthGrid builtOn holidayList date.

End Engine.

(** [{ name, emoji }] *)
Record Zodiac := {
  z_name : string;
  z_emoji : string
}.

Definition zodiacAnimals : list Zodiac :=
  [ {| z_name := "쥐띠"; z_emoji := "🐭" |};
    {| z_name := "소띠"; z_emoji := "🐮" |};
    {| z_name := "범띠"; z_emoji := "🐯" |};
    {| z_name := "토끼띠"; z_emoji := "🐰" |};
    {| z_name := "용띠"; z_emoji := "🐲" |};
    {| z_name := "뱀띠"; z_emoji := "🐍" |};
    {| z_name := "말띠"; z_emoji := "🐴" |};
    {| z_name := "양띠"; z_emoji := "🐑" |};
    {| z_name := "원숭이띠"; z_emoji := "🐵" |};
    {| z_name := "닭띠"; z_emoji := "🐓" |};
    {| z_name := "개띠"; z_emoji := "🐶" |};
    {| z_name := "돼지띠"; z_emoji := "🐷" |} ].

(** [getZodiacInfo]: [%] is the remainder that keeps the sign of the
    dividend, and an index below zero reads [undefined] *)
Definition getZodiacInfo (year : Z) : option Zodiac :=
  let baseYear := 1900 in
  let zodiacIndex := Z.rem (year - baseYear) 12 in
  if zodiacIndex <? 0 then None else zodiacAnimals !! Z.to_nat zodiacIndex.

(** [handleKeyNavigation]: the date handed to [onDateChange], if any *)
Definition handleKeyNavigation (currentDate : Date) (key : string) : option Date :=
  let year := getFullYear currentDate in
  let month := getMonth currentDate in
  if String.eqb key "ArrowLeft" then Some (mkDate year (month - 1) 1)
  else if String.eqb key "ArrowRight" then Some (mkDate year (month + 1) 1)
  else if String.eqb key "ArrowUp" then Some (mkDate (year - 1) month 1)
  else if String.eqb key "ArrowDown" then Some (mkDate (year + 1) month 1)
  else None.

Definition WINDOW_SIZE : Z := 49.
Definition CENTER_INDEX : Z := 24.

(** [monthDate] of entry [i] of the mobile window at [newOffset]:
    [new Date(today.getFullYear(), today.getMonth() + offset, 1)] with
    [offset = newOffset + (i - CENTER_INDEX)]; the first window has
    [newOffset = 0] *)
Definition windowMonth (today : Date) (newOffset i : Z) : Date :=
  let offset := newOffset + (i - CENTER_INDEX) in
  mkDate (getFullYear today) (getMonth today + offset) 1.

(** [key] of a window entry *)
Definition windowKey (monthDate : Date) : string :=
  monthKey (getFullYear monthDate) (getMonth monthDate).

(** the [date] and [key] fields of the entries of a window, in order *)
Definition windowMonths (today : Date) (newOffset : Z) : list (Date * string) :=
  map (fun i => (windowMonth today newOffset i, windowKey (windowMonth today newOffset i)))
      (seqZ 0 WINDOW_SIZE).

(** the month numbers the two mini calendars are headed with,
    [{month === 0 ? 12 : month}] and [{month === 11 ? 1 : month + 2}] *)
Definition previousMonthLabel (month : Z) : Z := if month =? 0 then 12 else month.
Definition nextMonthLabel (month : Z) : Z := if month =? 11 then 1 else month + 2.

(** the dates whose grids the two mini calendars show,
    [new Date(year, month - 1)] and [new Date(year, month + 1)] *)
Definition previousMonthDate (currentDate : Date) : Date :=
  mkDate (getFullYear currentDate) (getMonth currentDate - 1) 1.
Definition nextMonthDate (currentDate : Date) : Date :=
  mkDate (getFullYear currentDate) (getMonth currentDate + 1) 1.

End Grid.

(** ** Facts about the date model *)
Module JsDateFacts.
Import JsDate.

Lemma MonthFromTime_range (t : Date) : 0 <= MonthFromTime t <= 11.
Proof.
  unfold MonthFromTime.
  repeat match goal with |- context [if ?b then _ else _] => destruct b end; lia.
Qed.

Lemma MakeDay_civil (t : Date) (k : Z) :
  MakeDay (YearFromTime t) (MonthFromTime t) (DateFromTime t + k) = t + k.
Proof.
  pose proof (MonthFromTime_range t) as Hm.
  unfold MakeDay.
  rewrite (Z.div_small (MonthFromTime t) 12) by lia.
  rewrite (Z.mod_small (MonthFromTime t) 12) by lia.
  unfold DateFromTime, DayWithinYear, InLeapYear.
  rewrite Z.add_0_r. lia.
Qed.

(** [t.setDate(t.getDate() + k)] moves [t] by [k] calendar days. *)
Lemma setDate_getDate (t : Date) (k : Z) : setDate t (getDate t + k) = t + k.
Proof. apply MakeDay_civil. Qed.

Lemma toDateString_inj (a b : Date) : toDateString a = toDateString b -> a = b.
Proof.
  unfold toDateString, getDay, getMonth, getDate, getFullYear.
  intros H. injection H as _ Hm Hd Hy.
  pose proof (MakeDay_civil a 0) as Ha.
  pose proof (MakeDay_civil b 0) as Hb.
  rewrite Hy, Hm, Hd in Ha. lia.
Qed.

Lemma sameDateString_eq (a b : Date) : sameDateString a b = true <-> a = b.
Proof.
  unfold sameDateString. rewrite bool_decide_eq_true.
  split; [apply toDateString_inj | now intros ->].
Qed.

Lemma sameDateString_eqb (a b : Date) : sameDateString a b = (a =? b).
Proof.
  destruct (Z.eqb_spec a b) as [->|Hne].
  - now apply sameDateString_eq.
  - destruct (sameDateString a b) eqn:E; [|reflexivity].
    apply sameDateString_eq in E. contradiction.
Qed.

(** [new Date(y, m, d + k)] is [k] days after [new Date(y, m, d)]. *)
Lemma mkDate_shift (y mi d k : Z) : mkDate y mi (d + k) = mkDate y mi d + k.
Proof. unfold mkDate, MakeDay. lia. Qed.

Lemma DayFromYear_step (y : Z) : DayFromYear (y + 1) = DayFromYear y + DaysInYear y.
Proof.
  unfold DayFromYear, DaysInYear.
  repeat match goal with |- context [if ?b then _ else _] => destruct b eqn:? end;
    rewrite ?negb_true_iff, ?negb_false_iff, ?Z.eqb_eq, ?Z.eqb_neq in *;
    Z.div_mod_to_equations; lia.
Qed.

Lemma YearFromTime_spec (t : Date) :
  DayFromYear (YearFromTime t) <= t < DayFromYear (YearFromTime t + 1).
Proof.
  unfold YearFromTime.
  set (y := 1970 + 400 * t / 146097).
  assert (Hlo : DayFromYear (y - 1) <= t).
  { unfold DayFromYear, y. Z.div_mod_to_equations. lia. }
  assert (Hhi : t < DayFromYear (y + 2)).
  { unfold DayFromYear, y. Z.div_mod_to_equations. lia. }
  destruct (Z.leb_spec (DayFromYear (y + 1)) t).
  - replace (y + 1 + 1) with (y + 2) by lia. lia.
  - destruct (Z.leb_spec (DayFromYear y) t).
    + lia.
    + replace (y - 1 + 1) with y by lia. lia.
Qed.

Lemma DayFromYear_mono (a b : Z) : a <= b -> DayFromYear a <= DayFromYear b.
Proof. unfold DayFromYear. intros. Z.div_mod_to_equations. lia. Qed.

Lemma YearFromTime_unique (t y : Z) :
  DayFromYear y <= t < DayFromYear (y + 1) -> YearFromTime t = y.
Proof.
  intros H. pose proof (YearFromTime_spec t) as Hs.
  destruct (Z.lt_trichotomy (YearFromTime t) y) as [Hlt|[->|Hgt]]; [|reflexivity|].
  - pose proof (DayFromYear_mono (YearFromTime t + 1) y ltac:(lia)). lia.
  - pose proof (DayFromYear_mono (y + 1) (YearFromTime t) ltac:(lia)). lia.
Qed.

Lemma leapDay_cases (y : Z) :
  (leapDay y = 0 /\ DaysInYear y = 365) \/ (leapDay y = 1 /\ DaysInYear y = 366).
Proof.
  assert (H : DaysInYear y = 365 \/ DaysInYear y = 366).
  { unfold DaysInYear.
    repeat match goal with |- context [if ?b then _ else _] => destruct b end; auto. }
  unfold leapDay. destruct H as [-> | ->]; simpl; auto.
Qed.

(** The getters read back what the constructor was given. *)
Lemma civil_mkDate (y m d : Z) :
  validDate y m d = true ->
  getFullYear (mkDate y (m - 1) d) = y /\
  getMonth (mkDate y (m - 1) d) + 1 = m /\
  getDate (mkDate y (m - 1) d) = d.
Proof.
  unfold validDate. rewrite !andb_true_iff, negb_true_iff.
  intros [[[[Hy Hm1] Hm2] Hd1] Hd2].
  apply Z.leb_le in Hm1, Hm2, Hd1, Hd2.
  unfold mkDate. rewrite Hy. unfold MakeDay.
  rewrite (Z.div_small (m - 1) 12), (Z.mod_small (m - 1) 12), Z.add_0_r by lia.
  pose proof (DayFromYear_step y) as Hstep.
  pose proof (leapDay_cases y) as Hleap.
  set (t := DayFromYear y + monthStart (leapDay y) (m - 1) + d - 1).
  assert (Hm : m = 1 \/ m = 2 \/ m = 3 \/ m = 4 \/ m = 5 \/ m = 6 \/ m = 7 \/
               m = 8 \/ m = 9 \/ m = 10 \/ m = 11 \/ m = 12) by lia.
  assert (Hyear : YearFromTime t = y).
  { apply YearFromTime_unique. rewrite Hstep. unfold t.
    repeat (destruct Hm as [->|Hm]; [simpl in *; lia|]); subst m; simpl in *; lia. }
  unfold getFullYear, getMonth, getDate, DateFromTime, MonthFromTime, InLeapYear,
    DayWithinYear.
  rewrite Hyear. split; [reflexivity|].
  unfold t.
  repeat (destruct Hm as [->|Hm];
    [simpl in *;
     repeat match goal with |- context [if ?a <? ?b then _ else _] =>
       destruct (Z.ltb_spec a b); try lia end; simpl; lia|]).
  subst m; simpl in *.
  repeat match goal with |- context [if ?a <? ?b then _ else _] =>
    destruct (Z.ltb_spec a b); try lia end; simpl; lia.
Qed.

End JsDateFacts.

(** ** Facts about the string helpers *)
Module JsStringFacts.
Import JsString.

Lemma truthy_eqb (s : string) : truthy s = negb (String.eqb s "").
Proof. now destruct s. Qed.

Lemma truthy_false (s : string) : truthy s = false <-> s = "".
Proof. destruct s; simpl; split; congruence. Qed.

Lemma dashFree_digits (d : Decimal.uint) : dashFree (NilEmpty.string_of_uint d) = true.
Proof. induction d; simpl; auto. Qed.

Lemma dashFree_uint (d : Decimal.uint) : dashFree (NilZero.string_of_uint d) = true.
Proof. destruct d; try reflexivity; apply (dashFree_digits (_ d)). Qed.

(** The first dash after a dash-free prefix is found at one place only. *)
Lemma dashFree_split (s s' r r' : string) :
  dashFree s = true -> dashFree s' = true ->
  s +:+ String "-" r = s' +:+ String "-" r' -> s = s' /\ r = r'.
Proof.
  revert s'. induction s as [|c s IH]; intros [|c' s'] Hs Hs' E; simpl in *.
  - now injection E.
  - injection E as <- _. now apply andb_true_iff in Hs' as [? _].
  - injection E as -> _. now apply andb_true_iff in Hs as [? _].
  - injection E as <- E.
    apply andb_true_iff in Hs as [_ Hs]. apply andb_true_iff in Hs' as [_ Hs'].
    destruct (IH s' Hs Hs' E) as [-> ->]. auto.
Qed.

(** A rendered integer is one character, a digit or the sign, followed by
    digits. *)
Lemma numToString_shape (n : Z) :
  exists c rest, numToString n = String c rest /\ dashFree rest = true.
Proof.
  unfold numToString. destruct n as [|p|p]; simpl.
  - now exists "0"%char, "".
  - pose proof (dashFree_uint (Pos.to_uint p)) as H.
    pose proof (DecimalPos.Unsigned.to_uint_nonnil p) as Hn.
    destruct (Pos.to_uint p) eqn:E; try contradiction;
      simpl in *; eexists _, _; (split; [reflexivity|]); assumption.
  - exists "-"%char, (NilZero.string_of_uint (Pos.to_uint p)).
    split; [reflexivity | apply dashFree_uint].
Qed.

Lemma numToString_inj (a b : Z) : numToString a = numToString b -> a = b.
Proof.
  unfold numToString. intros E.
  assert (Hnil : forall n, Z.to_int n <> Decimal.Pos Decimal.Nil /\
                           Z.to_int n <> Decimal.Neg Decimal.Nil).
  { intros [|p|p]; simpl; split; try discriminate;
      intros [= H]; now apply (DecimalPos.Unsigned.to_uint_nonnil p). }
  apply DecimalZ.to_int_inj.
  destruct (Hnil a) as [Ha1 Ha2], (Hnil b) as [Hb1 Hb2].
  pose proof (NilZero.isi _ Ha1 Ha2) as Ia.
  pose proof (NilZero.isi _ Hb1 Hb2) as Ib.
  rewrite E in Ia. congruence.
Qed.

(** A rendered integer followed by a dash determines the integer and the
    rest. *)
Lemma numToString_dash_inj (a b : Z) (r r' : string) :
  numToString a +:+ String "-" r = numToString b +:+ String "-" r' ->
  a = b /\ r = r'.
Proof.
  destruct (numToString_shape a) as (c & s & Ea & Hs).
  destruct (numToString_shape b) as (c' & s' & Eb & Hs').
  intros E. rewrite Ea, Eb in E. simpl in E. injection E as Hc E.
  destruct (dashFree_split _ _ _ _ Hs Hs' E) as [-> ->].
  split; [|reflexivity]. apply numToString_inj. congruence.
Qed.

Lemma includes_nil (needle : string) : includes "" needle = true -> needle = "".
Proof. destruct needle; simpl; [reflexivity | discriminate]. Qed.

(** *** The rendering of a number is its decimal numeral *)

Lemma string_of_uint_to_list (u : Decimal.uint) :
  NilEmpty.string_of_uint u =
  string_of_list_ascii (map charOfDigit (DecimalFacts.to_list u)).
Proof. induction u; simpl; congruence. Qed.

(** the last digit of [10 * q + r] is [r], the digits before it are those
    of [q] *)
Lemma to_lu_digit (q : positive) (r : N) :
  (r < 10)%N ->
  map charOfDigit (DecimalFacts.to_list (DecimalPos.Unsigned.to_lu (r + 10 * N.pos q))) =
  Spec.digitChar (Z.of_N r) ::
  map charOfDigit (DecimalFacts.to_list (DecimalPos.Unsigned.to_lu (N.pos q))).
Proof.
  intros Hr.
  assert (H : (r = 0 \/ r = 1 \/ r = 2 \/ r = 3 \/ r = 4 \/ r = 5 \/ r = 6 \/ r = 7 \/
               r = 8 \/ r = 9)%N) by lia.
  pose proof (DecimalPos.Unsigned.to_ldec_tenfold q) as H10.
  assert (Hs : forall k n, (N.of_nat (S k) + n = N.succ (N.of_nat k + n))%N) by lia.
  decompose [or] H; subst r;
    [ change 0%N with (N.of_nat 0) | change 1%N with (N.of_nat 1)
    | change 2%N with (N.of_nat 2) | change 3%N with (N.of_nat 3)
    | change 4%N with (N.of_nat 4) | change 5%N with (N.of_nat 5)
    | change 6%N with (N.of_nat 6) | change 7%N with (N.of_nat 7)
    | change 8%N with (N.of_nat 8) | change 9%N with (N.of_nat 9) ];
    rewrite ?Hs, ?DecimalPos.Unsigned.to_lu_succ; change (N.of_nat 0 + ?n)%N with n;
    rewrite H10; reflexivity.
Qed.

Lemma digitsOf_little (fuel : nat) (p : positive) :
  Z.pos p <= Z.of_nat fuel ->
  map charOfDigit (DecimalFacts.to_list (Pos.to_little_uint p)) =
  map Spec.digitChar (Spec.digitsOf fuel (Z.pos p)).
Proof.
  revert p. induction fuel as [|fuel IH]; intros p Hp; [lia|].
  cbn [Spec.digitsOf].
  destruct (Z.ltb_spec (Z.pos p) 10) as [Hlt|Hge].
  - assert (H : (p = 1 \/ p = 2 \/ p = 3 \/ p = 4 \/ p = 5 \/ p = 6 \/ p = 7 \/
                 p = 8 \/ p = 9)%positive) by lia.
    decompose [or] H; subst p; reflexivity.
  - pose proof (Z.div_mod (Z.pos p) 10 ltac:(lia)) as Hdm.
    pose proof (Z.mod_pos_bound (Z.pos p) 10 ltac:(lia)) as Hr.
    assert (Hq : 0 < Z.pos p / 10) by (apply Z.div_str_pos; lia).
    destruct (Z.pos p / 10) as [|q|q] eqn:Eq; try lia.
    change (Pos.to_little_uint p) with (DecimalPos.Unsigned.to_lu (N.pos p)).
    replace (N.pos p) with (Z.to_N (Z.pos p mod 10) + 10 * N.pos q)%N by lia.
    rewrite to_lu_digit by lia.
    rewrite Z2N.id by lia. cbn [map]. f_equal.
    apply (IH q). lia.
Qed.

(** [`${n}`] is the decimal numeral of [n], for every integer. *)
Lemma numToString_decimal (n : Z) : numToString n = Spec.decimal n.
Proof.
  assert (Hpos : forall p,
            NilZero.string_of_uint (Pos.to_uint p) = Spec.digitString (Z.pos p)).
  { intros p. unfold Spec.digitString.
    pose proof (DecimalPos.Unsigned.to_uint_nonnil p) as Hn.
    replace (NilZero.string_of_uint (Pos.to_uint p))
      with (NilEmpty.string_of_uint (Pos.to_uint p))
      by (destruct (Pos.to_uint p); [contradiction | reflexivity ..]).
    rewrite string_of_uint_to_list. unfold Pos.to_uint.
    rewrite DecimalFacts.rev_spec, map_rev,
      (digitsOf_little (S (Z.to_nat (Z.pos p)))) by lia.
    now rewrite map_rev. }
  unfold numToString, Spec.decimal. destruct n as [|p|p].
  - reflexivity.
  - change (Z.pos p <? 0) with false. cbv iota. apply Hpos.
  - change (Z.neg p <? 0) with true. cbv iota. simpl Z.to_int.
    cbn [NilZero.string_of_int]. f_equal. apply Hpos.
Qed.

End JsStringFacts.

(** ** The lunar marker and the lunar holiday spans *)
Module LunarFacts.
Import JsString JsDate Names Calendar JsDateFacts JsStringFacts.

Section Lunar.

Variable toLunar : Z -> Z -> Z -> option LunarDate.

Lemma cacheKey_inj (y m d y' m' d' : Z) :
  cacheKey y m d = cacheKey y' m' d' -> y = y' /\ m = m' /\ d = d'.
Proof.
  unfold cacheKey. simpl. intros E.
  apply numToString_dash_inj in E as [-> E].
  apply numToString_dash_inj in E as [-> E].
  apply numToString_inj in E. auto.
Qed.

Lemma lunarLabel_nonempty (m d : Z) : lunarLabel m d <> "".
Proof. unfold lunarLabel, LunarPrefix. simpl. discriminate. Qed.

Lemma lunarCacheOk_empty : lunarCacheOk toLunar ∅.
Proof. intros y m d v H. rewrite lookup_empty in H. discriminate. Qed.

(** On a consistent cache [getLunarDate] returns what it computes ... *)
Lemma getLunarDate_result (lunarCache : gmap string string) (y m d : Z) :
  lunarCacheOk toLunar lunarCache ->
  snd (getLunarDate toLunar lunarCache y m d) = computeLunarDate toLunar y m d.
Proof.
  intros Hok. unfold getLunarDate.
  destruct (lunarCache !! cacheKey y m d) as [v|] eqn:E; simpl; [|reflexivity].
  now apply Hok.
Qed.

(** ... and leaves the cache consistent. *)
Lemma getLunarDate_ok (lunarCache : gmap string string) (y m d : Z) :
  lunarCacheOk toLunar lunarCache ->
  lunarCacheOk toLunar (fst (getLunarDate toLunar lunarCache y m d)).
Proof.
  intros Hok. unfold getLunarDate.
  destruct (lunarCache !! cacheKey y m d) as [v|] eqn:E; simpl; [assumption|].
  intros y' m' d' v' H.
  destruct (decide (cacheKey y m d = cacheKey y' m' d')) as [Heq|Hne].
  - rewrite <- Heq, lookup_insert_eq in H.
    apply cacheKey_inj in Heq as (-> & -> & ->). congruence.
  - rewrite lookup_insert_ne in H by assumption. now apply Hok.
Qed.



(** The names the resolver can return. *)
Lemma getLunarHolidayInfo_names (y m d : Z) :
  let info := getLunarHolidayInfo toLunar y m d in
  (hi_name info = Seollal /\ hi_type info = TLunarNewYear) \/
  (hi_name info = SeollalHoliday /\ hi_type info = TLunarNewYear) \/
  (hi_name info = Chuseok /\ hi_type info = TChuseok) \/
  (hi_name info = ChuseokHoliday /\ hi_type info = TChuseok) \/
  info = noLunarHoliday.
Proof.
  unfold getLunarHolidayInfo.
  destruct (toLunar y m d) as [l|]; [|now repeat right].
  repeat match goal with |- context [if ?b then _ else _] => destruct b end;
    simpl; tauto.
Qed.

(** On a calendar date the probes and the direct conversion ask the
    converter the same question. *)
Lemma lunarOfDate_mkDate (y m d : Z) :
  validDate y m d = true -> lunarOfDate toLunar (mkDate y (m - 1) d) = toLunar y m d.
Proof.
  intros Hv. destruct (civil_mkDate y m d Hv) as (Hy & Hm & Hd).
  unfold lunarOfDate. now rewrite Hy, Hm, Hd.
Qed.

Lemma lunarInfoOf_mkDate (y m d : Z) :
  validDate y m d = true ->
  lunarInfoOf toLunar (mkDate y (m - 1) d) = getLunarHolidayInfo toLunar y m d.
Proof.
  intros Hv. destruct (civil_mkDate y m d Hv) as (Hy & Hm & Hd).
  unfold lunarInfoOf. now rewrite Hy, Hm, Hd.
Qed.

Example lunarLabel_mid_autumn : lunarLabel 8 15 = "음 8.15".
Proof. reflexivity. Qed.

(** the label of the code is the marker text, numeral by numeral *)
Lemma lunarLabel_markerText (m d : Z) : lunarLabel m d = Spec.markerText m d.
Proof.
  unfold lunarLabel, Spec.markerText, LunarPrefix.
  now rewrite !numToString_decimal.
Qed.



(** C8. On a date the Converter converts, [getLunarDate] returns the
    marker 음 m.d, written with the lunar month and day of that date in
    decimal, exactly when the lunar day is 1 or 15 or the next day
    converts to lunar day 1, and the empty string otherwise; a conversion
    that fails on the next-day probe leaves the date unmarked instead of
    failing the call. *)
Theorem lunar_marker_days (lunarCache : gmap string string) (y m d : Z) (l : LunarDate) :
  lunarCacheOk toLunar lunarCache ->
  toLunar y m d = Some l ->
  let t := mkDate y (m - 1) d in
  let marker := snd (getLunarDate toLunar lunarCache y m d) in
  (marker = Spec.markerText (l_month l) (l_day l) <-> Spec.marked toLunar l t) /\
  (marker = "" <-> ~ Spec.marked toLunar l t) /\
  (lunarOfDate toLunar (t + 1) = None -> l_day l <> 1 -> l_day l <> 15 -> marker = "").
Proof.
  intros Hok Hl t marker. unfold marker.
  rewrite (getLunarDate_result _ _ _ _ Hok).
  pose proof (lunarLabel_nonempty (l_month l) (l_day l)) as Hne.
  unfold computeLunarDate. rewrite Hl.
  replace (mkDate y (m - 1) (d + 1)) with (t + 1) by (unfold t; now rewrite mkDate_shift).
  rewrite <- lunarLabel_markerText.
  unfold Spec.marked, Spec.lastOfLunarMonth.
  assert (Hlast : forall next, lunarOfDate toLunar (t + 1) = Some next ->
                  (l_day next = 1 <-> exists n, Some next = Some n /\ l_day n = 1)).
  { intros next _. split; [intros ?; now exists next | now intros (n & [= <-] & ?)]. }
  destruct (Z.eqb_spec (l_day l) 1) as [H1|H1]; simpl; [tauto|].
  destruct (Z.eqb_spec (l_day l) 15) as [H15|H15]; simpl; [tauto|].
  destruct (lunarOfDate toLunar (t + 1)) as [next|] eqn:Enext.
  - specialize (Hlast next eq_refl).
    destruct (Z.eqb_spec (l_day next) 1) as [Hn|Hn].
    + intuition congruence.
    + intuition congruence.
  - assert (Hno : ~ exists n : LunarDate, @None LunarDate = Some n /\ l_day n = 1)
      by (intros (n & [=] & _)).
    intuition congruence.
Qed.

End Lunar.



(** The marker of 2025-01-28, the last day of the 12th lunar month, and
    the unmarked 2025-01-20 under a converter that throws on the day
    after it. *)
Lemma lunar_marker_days_witness :
  lunarCacheOk Samples.toLunar ∅ /\
  Samples.toLunar 2025 1 28 =
  Some {| l_year := 2024; l_month := 12; l_day := 29; intercalation := false |} /\
  snd (getLunarDate Samples.toLunar ∅ 2025 1 28) = "음 12.29" /\
  snd (getLunarDate (Samples.toLunarWithin (mkDate 2025 0 20) (mkDate 2025 0 20)) ∅ 2025 1 20) = "".
Proof.
  split; [apply lunarCacheOk_empty|]. split; [reflexivity|]. split.
  - destruct (lunar_marker_days Samples.toLunar ∅ 2025 1 28 _
                (lunarCacheOk_empty Samples.toLunar) eq_refl) as [H _].
    change "음 12.29" with (Spec.markerText 12 29).
    apply H. right. right. eexists. split; reflexivity.
  - destruct (lunar_marker_days
                (Samples.toLunarWithin (mkDate 2025 0 20) (mkDate 2025 0 20)) ∅ 2025 1 20 _
                (lunarCacheOk_empty _) eq_refl) as (_ & _ & H).
    apply H; [reflexivity | discriminate | discriminate].
Defined.

End LunarFacts.

(** ** The substitute-holiday search *)
Module SubstituteFacts.
Import JsString JsDate Names Calendar JsDateFacts JsStringFacts.

Section Substitute.

Variable toLunar : Z -> Z -> Z -> option LunarDate.

Implicit Types (holidayList : list Holiday) (t origin : Date).

Lemma getDay_range t : 0 <= getDay t <= 6.
Proof. unfold getDay, WeekDay. pose proof (Z.mod_pos_bound (t + 4) 7). lia. Qed.

Lemma requiresSubstitute_spec (dow : Z) (hs : list TaggedHoliday) (h : TaggedHoliday) :
  requiresSubstitute dow hs h = true <-> Spec.requiredBy dow hs h.
Proof.
  unfold requiresSubstitute, Spec.requiredBy.
  assert (Hlen : (1 <? Z.of_nat (List.length hs)) = true <-> (1 < List.length hs)%nat)
    by (rewrite Z.ltb_lt; lia).
  assert (Hother :
    existsb (fun other => negb (includes (th_name other) Seollal) &&
                          negb (includes (th_name other) Chuseok)) hs = true <->
    exists other, In other hs /\ ~ Spec.lunarFamily (th_name other)).
  { rewrite existsb_exists. unfold Spec.lunarFamily.
    split; intros (o & Hin & Ho); exists o; (split; [assumption|]).
    - apply andb_true_iff in Ho as [H1 H2].
      apply negb_true_iff in H1, H2. intros [?|?]; congruence.
    - apply andb_true_iff.
      split; apply negb_true_iff; apply not_true_is_false; tauto. }
  destruct (th_type h).
  - rewrite !orb_true_iff, !Z.eqb_eq, Hlen. intuition discriminate.
  - destruct (Z.eqb_spec dow 0) as [->|Hd].
    + intuition discriminate.
    + destruct (1 <? Z.of_nat (List.length hs)).
      * rewrite Hother. intuition discriminate.
      * intuition discriminate.
  - intuition discriminate.
Qed.

Lemma shouldCreateSubstitute_spec (dow : Z) (hs : list TaggedHoliday) :
  shouldCreateSubstitute dow hs = true <-> Spec.substitutionRequired dow hs.
Proof.
  unfold shouldCreateSubstitute, Spec.substitutionRequired.
  rewrite existsb_exists.
  split; intros (h & Hin & Hh); exists h; (split; [assumption|]);
    now apply requiresSubstitute_spec.
Qed.

Lemma sourceHolidaysOn_tagged origin holidayList (h : TaggedHoliday) :
  In h (sourceHolidaysOn origin holidayList) ->
  th_type h = getHolidaySubstituteType (th_name h) /\
  includes (th_name h) ConstitutionDay = false.
Proof.
  induction holidayList as [|e rest IH]; simpl; [contradiction|].
  destruct (sameDateString (h_date e) origin); [|exact IH].
  destruct (includes (h_name e) ConstitutionDay) eqn:E; [exact IH|].
  intros [<-|Hin]; [simpl; auto | auto].
Qed.

Lemma holidaysOnDate_tagged origin holidayList (h : TaggedHoliday) :
  In h (holidaysOnDate toLunar origin holidayList) ->
  th_type h = getHolidaySubstituteType (th_name h).
Proof.
  unfold holidaysOnDate. rewrite in_app_iff. intros [Hin|Hin].
  - now apply sourceHolidaysOn_tagged in Hin.
  - destruct (truthy _); [|contradiction].
    destruct Hin as [<-|[]]. reflexivity.
Qed.

Lemma checkForSubstituteHoliday_not_required (fuel : nat) origin t holidayList :
  shouldCreateSubstitute (getDay origin) (holidaysOnDate toLunar origin holidayList) = false ->
  checkForSubstituteHoliday toLunar fuel origin t holidayList = Some false.
Proof.
  intros H. unfold checkForSubstituteHoliday. rewrite H. simpl.
  now destruct (_ =? 0).
Qed.

Lemma sundayOnly_lunarFamily (name : string) :
  getHolidaySubstituteType name = SundayOnly -> Spec.lunarFamily name.
Proof.
  unfold getHolidaySubstituteType, Spec.lunarFamily.
  destruct (existsb _ group1Holidays); [discriminate|].
  destruct (existsb _ group2Holidays) eqn:E.
  - intros _. simpl in E. rewrite orb_false_r in E. now apply orb_true_iff in E.
  - destruct (existsb _ group3Holidays); discriminate.
Qed.





(** *** The walk to the next workday *)

Lemma isDateHoliday_loop_source t holidayList :
  isDateHoliday_loop t holidayList = false <-> sourceHolidaysOn t holidayList = [].
Proof.
  induction holidayList as [|e rest IH]; simpl; [tauto|].
  destruct (sameDateString (h_date e) t); [|exact IH].
  destruct (includes (h_name e) ConstitutionDay); [exact IH|].
  split; discriminate.
Qed.

(** [isDateHoliday] answers whether the holiday set of the day, as
    [checkForSubstituteHoliday] collects it, is inhabited. *)
Lemma isDateHoliday_holidaysOnDate t holidayList :
  isDateHoliday toLunar t holidayList = false <-> holidaysOnDate toLunar t holidayList = [].
Proof.
  unfold isDateHoliday, holidaysOnDate.
  rewrite <- truthy_eqb.
  pose proof (isDateHoliday_loop_source t holidayList) as Hsrc.
  destruct (isDateHoliday_loop t holidayList).
  - split; [discriminate|]. intros H. apply app_eq_nil in H as [H _].
    now apply Hsrc in H.
  - destruct Hsrc as [Hsrc _]. rewrite (Hsrc eq_refl). simpl.
    destruct (truthy _); split; congruence.
Qed.

Lemma weekday_iff t :
  (getDay t =? 0) || (getDay t =? 6) = false <-> 1 <= getDay t <= 5.
Proof.
  pose proof (getDay_range t).
  rewrite orb_false_iff, !Z.eqb_neq. lia.
Qed.

(** one iteration of the loop stops exactly on an ordinary weekday *)
Lemma ordinaryWeekday_dec holidayList t :
  {Spec.ordinaryWeekday toLunar holidayList t} +
  {~ Spec.ordinaryWeekday toLunar holidayList t}.
Proof.
  unfold Spec.ordinaryWeekday.
  destruct (decide (1 <= getDay t <= 5)) as [Hd|Hd]; [|right; tauto].
  destruct (holidaysOnDate toLunar t holidayList) as [|h rest] eqn:E;
    [left; auto | right; intros [_ ?]; discriminate].
Qed.

Lemma findNextWorkday_loop_step (fuel : nat) t holidayList :
  findNextWorkday_loop toLunar (S fuel) t holidayList =
  if ordinaryWeekday_dec holidayList t then Some t
  else findNextWorkday_loop toLunar fuel (t + 1) holidayList.
Proof.
  simpl. rewrite setDate_getDate.
  pose proof (weekday_iff t) as Hw.
  pose proof (isDateHoliday_holidaysOnDate t holidayList) as Hh.
  destruct (ordinaryWeekday_dec holidayList t) as [[Hd He]|Hno].
  - destruct Hw as [_ Hw]. rewrite (Hw Hd).
    destruct Hh as [_ Hh]. rewrite (Hh He). reflexivity.
  - destruct ((getDay t =? 0) || (getDay t =? 6)); [reflexivity|].
    destruct (isDateHoliday toLunar t holidayList); [reflexivity|].
    exfalso. apply Hno. split; [now apply Hw | now apply Hh].
Qed.

(** The walk started at [start] ends on the first ordinary weekday at or
    after [start], given that there is one within reach of the fuel. *)
Lemma findNextWorkday_loop_first (fuel : nat) holidayList (start t : Date) :
  start <= t -> Spec.ordinaryWeekday toLunar holidayList t ->
  t - start < Z.of_nat fuel ->
  exists w, findNextWorkday_loop toLunar fuel start holidayList = Some w /\
            start <= w <= t /\ Spec.ordinaryWeekday toLunar holidayList w /\
            forall u, start <= u < w -> ~ Spec.ordinaryWeekday toLunar holidayList u.
Proof.
  revert start. induction fuel as [|fuel IH]; intros start Hle Hord Hfuel; [lia|].
  rewrite findNextWorkday_loop_step.
  destruct (ordinaryWeekday_dec holidayList start) as [Hs|Hs].
  - exists start. split; [reflexivity|]. split; [lia|]. split; [assumption|].
    intros u Hu. lia.
  - assert (start <> t) by (intros ->; contradiction).
    destruct (IH (start + 1)) as (w & Hw & Hrange & Hordw & Hfirst); auto; try lia.
    exists w. split; [assumption|]. split; [lia|]. split; [assumption|].
    intros u Hu. destruct (decide (u = start)) as [->|Hne]; [assumption|].
    apply Hfirst. lia.
Qed.

Lemma nextWorkdayIs_unique holidayList origin (w t : Date) :
  Spec.nextWorkdayIs toLunar holidayList origin w ->
  Spec.nextWorkdayIs toLunar holidayList origin t -> w = t.
Proof.
  intros (Hw1 & Hw2 & Hw3) (Ht1 & Ht2 & Ht3).
  destruct (Z.lt_trichotomy w t) as [Hlt|[Heq|Hgt]]; [|assumption|].
  - exfalso. apply (Ht3 w); [lia | assumption].
  - exfalso. apply (Hw3 t); [lia | assumption].
Qed.

(** [findNextWorkday] from an origin at most [fuel] days before an
    ordinary weekday returns, and what it returns is the next workday. *)
Lemma findNextWorkday_spec (fuel : nat) holidayList origin t :
  origin < t -> Spec.ordinaryWeekday toLunar holidayList t ->
  t - origin <= Z.of_nat fuel ->
  exists w, findNextWorkday toLunar fuel origin holidayList = Some w /\
            Spec.nextWorkdayIs toLunar holidayList origin w /\
            (w = t <-> Spec.nextWorkdayIs toLunar holidayList origin t).
Proof.
  intros Hlt Hord Hfuel. unfold findNextWorkday. rewrite setDate_getDate.
  destruct (findNextWorkday_loop_first fuel holidayList (origin + 1) t)
    as (w & Hw & Hrange & Hordw & Hfirst); auto; try lia.
  exists w. split; [assumption|].
  assert (Hnext : Spec.nextWorkdayIs toLunar holidayList origin w).
  { split; [lia|]. split; [assumption|]. intros u Hu. apply Hfirst. lia. }
  split; [assumption|]. split.
  - now intros <-.
  - intros Ht. exact (nextWorkdayIs_unique _ _ _ _ Hnext Ht).
Qed.

(** *** One origin, then the seven of them *)

Lemma checkForSubstituteHoliday_spec (fuel : nat) holidayList t (daysBack : Z) :
  Spec.ordinaryWeekday toLunar holidayList t ->
  1 <= daysBack <= Z.of_nat fuel ->
  exists b, checkForSubstituteHoliday toLunar fuel (t - daysBack) t holidayList = Some b /\
            (b = true <->
             Spec.substitutionRequired (getDay (t - daysBack))
               (holidaysOnDate toLunar (t - daysBack) holidayList) /\
             Spec.nextWorkdayIs toLunar holidayList (t - daysBack) t).
Proof.
  intros Hord Hk.
  pose proof (shouldCreateSubstitute_spec (getDay (t - daysBack))
                (holidaysOnDate toLunar (t - daysBack) holidayList)) as Hreq.
  destruct (shouldCreateSubstitute _ _) eqn:E.
  - destruct (findNextWorkday_spec fuel holidayList (t - daysBack) t)
      as (w & Hw & _ & Hiff); auto; try lia.
    unfold checkForSubstituteHoliday. rewrite E, Hw. simpl.
    destruct (holidaysOnDate toLunar (t - daysBack) holidayList) eqn:Eh;
      [discriminate E|]. simpl.
    exists (sameDateString w t). split; [reflexivity|].
    rewrite sameDateString_eq. tauto.
  - exists false. split; [now apply checkForSubstituteHoliday_not_required|].
    split; [discriminate|]. intros [Hr _]. apply Hreq in Hr. discriminate.
Qed.


Lemma substituteFound_neq : substituteFound <> noLunarHoliday.
Proof. discriminate. Qed.

Lemma lookBack_spec (fuel remaining : nat) (first : Z) t holidayList :
  Spec.ordinaryWeekday toLunar holidayList t ->
  1 <= first -> first + Z.of_nat remaining - 1 <= Z.of_nat fuel ->
  let found := exists k, first <= k < first + Z.of_nat remaining /\
                         Spec.substitutionRequired (getDay (t - k))
                           (holidaysOnDate toLunar (t - k) holidayList) /\
                         Spec.nextWorkdayIs toLunar holidayList (t - k) t in
  exists r, lookBack toLunar fuel remaining first t holidayList = Some r /\
            (r = substituteFound <-> found) /\
            (r = noLunarHoliday <-> ~ found).
Proof.
  intros Hord. revert first.
  induction remaining as [|remaining IH]; intros first H1 Hfuel found.
  - exists noLunarHoliday. split; [reflexivity|].
    assert (~ found) by (intros (k & ? & _); lia).
    split; split; try tauto; discriminate.
  - simpl. replace (getDate t - first) with (getDate t + - first) by lia.
    rewrite setDate_getDate. replace (t + - first) with (t - first) by lia.
    destruct (checkForSubstituteHoliday_spec fuel holidayList t first Hord)
      as (b & Hb & Hiff); [lia|].
    rewrite Hb. destruct b.
    + exists substituteFound. split; [reflexivity|].
      assert found by (exists first; split; [lia | now apply Hiff]).
      split; split; try tauto; discriminate.
    + destruct (IH (first + 1)) as (r & Hr & Hfound & Hnone); try lia.
      exists r. split; [assumption|].
      assert (Hshift : found <->
                exists k, first + 1 <= k < first + 1 + Z.of_nat remaining /\
                          Spec.substitutionRequired (getDay (t - k))
                            (holidaysOnDate toLunar (t - k) holidayList) /\
                          Spec.nextWorkdayIs toLunar holidayList (t - k) t).
      { split; intros (k & Hk & Hrest).
        - destruct (decide (k = first)) as [->|Hne].
          + apply Hiff in Hrest. discriminate.
          + exists k. split; [lia | assumption].
        - exists k. split; [lia | assumption]. }
      rewrite Hshift. split; assumption.
Qed.


(** With seven iterations of fuel the search returns on every input, and
    it returns one of its two results. *)
Lemma getSubstituteHolidayInfo_total (fuel : nat) (y m d : Z) holidayList :
  (7 <= fuel)%nat ->
  getSubstituteHolidayInfo toLunar fuel y m d holidayList = Some substituteFound \/
  getSubstituteHolidayInfo toLunar fuel y m d holidayList = Some noLunarHoliday.
Proof.
  intros Hfuel. unfold getSubstituteHolidayInfo.
  set (t := mkDate y (m - 1) d).
  destruct ((getDay t <? 1) || (5 <? getDay t)) eqn:Ew; [now right|].
  destruct (isDateHoliday toLunar t holidayList) eqn:Eh; [now right|].
  assert (Hord : Spec.ordinaryWeekday toLunar holidayList t).
  { apply orb_false_iff in Ew as [H1 H5]. apply Z.ltb_ge in H1, H5.
    split; [lia | now apply isDateHoliday_holidaysOnDate]. }
  destruct (lookBack_spec fuel 7 1 t holidayList Hord) as (r & Hr & Hfound & Hnone);
    try lia.
  rewrite Hr.
  destruct (decide (r = substituteFound)) as [->|Hne]; [now left|].
  right. f_equal. apply Hnone. intros Hf. now apply Hne, Hfound.
Qed.

(** What a found substitute says of its date. *)
Lemma getSubstituteHolidayInfo_found (fuel : nat) (y m d : Z) holidayList (r : HolidayInfo) :
  getSubstituteHolidayInfo toLunar fuel y m d holidayList = Some r ->
  hi_name r <> "" ->
  r = substituteFound /\ Spec.ordinaryWeekday toLunar holidayList (mkDate y (m - 1) d).
Proof.
  unfold getSubstituteHolidayInfo.
  set (t := mkDate y (m - 1) d).
  destruct ((getDay t <? 1) || (5 <? getDay t)) eqn:Ew;
    [intros [= <-] Hn; now contradiction Hn|].
  destruct (isDateHoliday toLunar t holidayList) eqn:Eh;
    [intros [= <-] Hn; now contradiction Hn|].
  intros Hr Hn. split.
  - clear Ew Eh. revert Hr. generalize 1. generalize 7%nat.
    intros remaining. induction remaining as [|remaining IH]; intros first; simpl.
    + intros [= <-]. now contradiction Hn.
    + destruct (checkForSubstituteHoliday _ _ _ _ _) as [[|]|]; try discriminate.
      * now intros [= <-].
      * apply IH.
  - apply orb_false_iff in Ew as [H1 H5]. apply Z.ltb_ge in H1, H5.
    split; [lia | now apply isDateHoliday_holidaysOnDate].
Qed.

(** *** The search in the words of the specification *)





End Substitute.



(** A Harvest Festival entry on Sunday 2025-11-02, the 13th of the 9th
    lunar month, and nothing else: no day carries a cleaned holiday, and
    the search gives the Monday after it a substitute holiday. *)
Example misdated_entry_earns_substitute :
  (forall daysBack,
     1 <= daysBack <= 7 ->
     Spec.holidaySetOf Samples.toLunar (mkDate 2025 (11 - 1) 3 - daysBack)
       Samples.sundayChuseok = []) /\
  Spec.plainWeekday Samples.toLunar Samples.sundayChuseok (mkDate 2025 (11 - 1) 3) /\
  getSubstituteHolidayInfo Samples.toLunar 7 2025 11 3 Samples.sundayChuseok =
    Some {| hi_name := "대체공휴일"; hi_type := TSubstitute |}.
Proof.
  split; [|split; [split|]].
  - intros k Hk.
    assert (H : k = 1 \/ k = 2 \/ k = 3 \/ k = 4 \/ k = 5 \/ k = 6 \/ k = 7) by lia.
    decompose [or] H; subst k; vm_compute; reflexivity.
  - vm_compute; split; discriminate.
  - vm_compute; reflexivity.
  - vm_compute; reflexivity.
Qed.



End SubstituteFacts.

(** ** The aggregator *)
Module AggregatorFacts.
Import JsString JsDate Names Calendar JsDateFacts JsStringFacts.
Import LunarFacts SubstituteFacts.

Section Aggregator.

Variable toLunar : Z -> Z -> Z -> option LunarDate.

Implicit Types (holidayList seed : list Holiday) (st : list string * HolidayType).

(** *** The insertion-ordered set *)

Lemma existsb_eqb_In (x : string) (s : list string) :
  existsb (String.eqb x) s = true <-> In x s.
Proof.
  rewrite existsb_exists. split.
  - intros (y & Hin & E). apply String.eqb_eq in E. now subst.
  - intros Hin. exists x. split; [assumption | apply String.eqb_refl].
Qed.

Lemma In_setAdd (n x : string) (s : list string) :
  In n (setAdd s x) <-> In n s \/ n = x.
Proof.
  unfold setAdd. destruct (existsb (String.eqb x) s) eqn:E.
  - apply existsb_eqb_In in E. split; [tauto | intros [? | ->]; assumption].
  - rewrite in_app_iff. simpl. intuition.
Qed.

Lemma setAdd_cons (a x : string) (s : list string) :
  exists s', setAdd (a :: s) x = a :: s'.
Proof.
  unfold setAdd. destruct (existsb _ _); [now exists s | now exists (s ++ [x])%list].
Qed.

Lemma setAdd_nil (x : string) : setAdd [] x = [x].
Proof. reflexivity. Qed.

Lemma existsb_same_members {A : Type} (f : A -> bool) (l l' : list A) :
  (forall x, In x l <-> In x l') -> existsb f l = existsb f l'.
Proof.
  intros H. apply eq_true_iff_eq. rewrite !existsb_exists.
  split; intros (x & Hin & Hx); exists x; (split; [now apply H | assumption]).
Qed.

(** *** The first loop *)

Lemma collectStep_contributes (y m d : Z) st (h : Holiday) :
  collectStep toLunar y m d (mkDate y (m - 1) d) st h =
  if contributes toLunar y m d (mkDate y (m - 1) d) h then takeStep st h else st.
Proof.
  unfold collectStep, contributes, takeStep.
  destruct (sameDateString _ _); [|reflexivity].
  destruct (includes (h_name h) ConstitutionDay); [reflexivity|].
  destruct (includes (h_name h) Chuseok && lunarNinthMonthSpan toLunar y m d); reflexivity.
Qed.

Lemma collect_seed (y m d : Z) holidayList st :
  fold_left (collectStep toLunar y m d (mkDate y (m - 1) d)) holidayList st =
  fold_left takeStep (seedEntries toLunar y m d holidayList) st.
Proof.
  unfold seedEntries. revert st.
  induction holidayList as [|h rest IH]; intros st; simpl; [reflexivity|].
  rewrite collectStep_contributes.
  destruct (contributes toLunar y m d (mkDate y (m - 1) d) h); simpl; apply IH.
Qed.

Lemma sourceType_nonempty (h : Holiday) : sourceType h <> TEmpty.
Proof.
  unfold sourceType.
  repeat match goal with |- context [if ?b then _ else _] => destruct b end;
    discriminate.
Qed.

Lemma take_names seed st (n : string) :
  In n (fst (fold_left takeStep seed st)) <->
  In n (fst st) \/ In n (map h_name seed).
Proof.
  revert st. induction seed as [|h rest IH]; intros st; simpl; [tauto|].
  rewrite IH. simpl. rewrite In_setAdd. intuition.
Qed.

Lemma take_head seed (a : string) (s : list string) (ty : HolidayType) :
  exists s', fst (fold_left takeStep seed (a :: s, ty)) = a :: s'.
Proof.
  revert s ty. induction seed as [|h rest IH]; intros s ty; simpl; [now exists s|].
  unfold takeStep at 2. simpl fst.
  destruct (setAdd_cons a (h_name h) s) as (s' & ->). apply IH.
Qed.

Lemma take_type seed (ns : list string) (ty : HolidayType) :
  ty <> TEmpty -> snd (fold_left takeStep seed (ns, ty)) = ty.
Proof.
  revert ns. induction seed as [|h rest IH]; intros ns Hty; simpl; [reflexivity|].
  destruct ty; try contradiction; now apply IH.
Qed.

(** The state after the first loop: nothing without a contributing
    entry; else the names of the contributing entries, the first of them
    first, and the type of that first entry. *)
Lemma seed_state (y m d : Z) holidayList :
  let st := fold_left (collectStep toLunar y m d (mkDate y (m - 1) d)) holidayList
                      ([], TEmpty) in
  match seedEntries toLunar y m d holidayList with
  | [] => st = ([], TEmpty)
  | first :: rest =>
      (exists s', fst st = h_name first :: s') /\
      snd st = sourceType first /\
      forall n, In n (fst st) <-> In n (map h_name (first :: rest))
  end.
Proof.
  intros st. unfold st. rewrite collect_seed.
  destruct (seedEntries toLunar y m d holidayList) as [|first rest]; [reflexivity|].
  split; [|split].
  - simpl. apply take_head.
  - simpl. apply take_type, sourceType_nonempty.
  - intros n. rewrite take_names. simpl. tauto.
Qed.

(** *** The second block *)

Lemma addLunar_spec (info : HolidayInfo) st :
  addLunar info st =
  if truthy (hi_name info) && negb (similarIn (fst st) (hi_name info))
  then (setAdd (fst st) (hi_name info),
        match snd st with TEmpty => hi_type info | ty => ty end)
  else st.
Proof.
  unfold addLunar, similarIn. destruct (truthy (hi_name info)); [|reflexivity].
  simpl. now destruct (negb _).
Qed.

Lemma length_zero_iff {A : Type} (l : list A) :
  (Z.of_nat (List.length l) =? 0) = true <-> l = [].
Proof. destruct l; simpl; split; try congruence; try reflexivity; lia. Qed.

(** *** The three ways a classification comes about *)

Lemma classifyWith_seeded (fuel : nat) holidayList (y m d : Z) (first : Holiday) rest :
  seedEntries toLunar y m d holidayList = first :: rest ->
  let lunar := getLunarHolidayInfo toLunar y m d in
  exists c, classifyWith toLunar fuel holidayList y m d = Some c /\
    a_name c = h_name first /\
    a_type c = sourceType first /\
    forall n, In n (a_names c) <->
              In n (map h_name (first :: rest)) \/
              (n = hi_name lunar /\ n <> "" /\
               similarIn (map h_name (first :: rest)) (hi_name lunar) = false).
Proof.
  intros Hseed lunar.
  pose proof (seed_state y m d holidayList) as Hst. rewrite Hseed in Hst.
  unfold classifyWith. fold lunar.
  set (st1 := fold_left _ holidayList _) in *. cbv zeta in Hst.
  destruct Hst as ((s' & Hfst) & Hsnd & Hmem).
  remember (map h_name (first :: rest)) as names eqn:Hnames.
  assert (Hsim : similarIn (fst st1) (hi_name lunar) = similarIn names (hi_name lunar))
    by (apply existsb_same_members; exact Hmem).
  rewrite addLunar_spec, Hsim.
  assert (Hty : match snd st1 with TEmpty => hi_type lunar | ty => ty end = sourceType first).
  { rewrite Hsnd. pose proof (sourceType_nonempty first).
    destruct (sourceType first); congruence. }
  destruct st1 as [ns ty]. cbn [fst snd] in *. subst ns.
  destruct (truthy (hi_name lunar) && negb (similarIn names (hi_name lunar))) eqn:E;
    cbn [fst snd].
  - apply andb_true_iff in E as [Et Es]. apply negb_true_iff in Es.
    destruct (setAdd_cons (h_name first) (hi_name lunar) s') as (s'' & Hadd).
    assert (Hlen : (Z.of_nat (List.length (setAdd (h_name first :: s') (hi_name lunar)))
                    =? 0) = false) by (rewrite Hadd; reflexivity).
    rewrite Hlen. eexists. split; [reflexivity|].
    unfold finish. cbn [a_name a_names a_type fst snd].
    split; [rewrite Hadd; reflexivity|]. split; [exact Hty|].
    intros n. rewrite In_setAdd, Hmem.
    assert (hi_name lunar <> "") by (intros E0; rewrite E0 in Et; discriminate).
    split; [intros [? | ->]; auto | intros [? | (-> & _)]; auto].
  - eexists. split; [reflexivity|].
    unfold finish. cbn [a_name a_names a_type fst snd].
    split; [reflexivity|]. split; [exact Hsnd|].
    intros n. rewrite Hmem.
    split; [auto|]. intros [? | (-> & Hn & Hs)]; [assumption|].
    exfalso. rewrite Hs in E. simpl in E. rewrite andb_true_r in E.
    apply truthy_false in E. contradiction.
Qed.

Lemma classifyWith_lunar_only (fuel : nat) holidayList (y m d : Z) :
  seedEntries toLunar y m d holidayList = [] ->
  let lunar := getLunarHolidayInfo toLunar y m d in
  hi_name lunar <> "" ->
  classifyWith toLunar fuel holidayList y m d =
  Some {| a_name := hi_name lunar; a_names := [hi_name lunar]; a_type := hi_type lunar |}.
Proof.
  intros Hseed lunar Hname.
  pose proof (seed_state y m d holidayList) as Hst. rewrite Hseed in Hst.
  unfold classifyWith. fold lunar. simpl in Hst. rewrite Hst, addLunar_spec. simpl.
  destruct (truthy (hi_name lunar)) eqn:E;
    [|apply truthy_false in E; contradiction].
  reflexivity.
Qed.

Lemma classifyWith_unseeded (fuel : nat) holidayList (y m d : Z) :
  seedEntries toLunar y m d holidayList = [] ->
  hi_name (getLunarHolidayInfo toLunar y m d) = "" ->
  classifyWith toLunar fuel holidayList y m d =
  match getSubstituteHolidayInfo toLunar fuel y m d holidayList with
  | None => None
  | Some substituteInfo =>
      if truthy (hi_name substituteInfo)
      then Some {| a_name := hi_name substituteInfo;
                   a_names := [hi_name substituteInfo];
                   a_type := hi_type substituteInfo |}
      else Some emptyClassification
  end.
Proof.
  intros Hseed Hname.
  pose proof (seed_state y m d holidayList) as Hst. rewrite Hseed in Hst.
  unfold classifyWith. simpl in Hst. rewrite Hst, addLunar_spec, Hname. simpl.
  destruct (getSubstituteHolidayInfo _ _ _ _ _ _) as [s|]; reflexivity.
Qed.


(** Every classification comes about in one of four ways. *)
Lemma classifyWith_cases (fuel : nat) holidayList (y m d : Z) (c : AllHolidayInfo) :
  classifyWith toLunar fuel holidayList y m d = Some c ->
  let lunar := getLunarHolidayInfo toLunar y m d in
  let seed := seedEntries toLunar y m d holidayList in
  (exists first rest,
      seed = first :: rest /\ a_name c = h_name first /\ a_type c = sourceType first /\
      forall n, In n (a_names c) <->
                In n (map h_name seed) \/
                (n = hi_name lunar /\ n <> "" /\
                 similarIn (map h_name seed) (hi_name lunar) = false)) \/
  (seed = [] /\ hi_name lunar <> "" /\
   c = {| a_name := hi_name lunar; a_names := [hi_name lunar]; a_type := hi_type lunar |}) \/
  (seed = [] /\ hi_name lunar = "" /\
   c = {| a_name := SubstituteHoliday; a_names := [SubstituteHoliday];
          a_type := TSubstitute |} /\
   Spec.ordinaryWeekday toLunar holidayList (mkDate y (m - 1) d)) \/
  (seed = [] /\ hi_name lunar = "" /\ c = emptyClassification).
Proof.
  intros Hc lunar seed. unfold seed.
  destruct (seedEntries toLunar y m d holidayList) as [|first rest] eqn:Hseed.
  - right.
    destruct (decide (hi_name lunar = "")) as [Hn|Hn].
    + right. rewrite classifyWith_unseeded in Hc by assumption.
      destruct (getSubstituteHolidayInfo toLunar fuel y m d holidayList) as [s|] eqn:Es;
        [|discriminate].
      destruct (truthy (hi_name s)) eqn:Et.
      * left. injection Hc as <-.
        destruct (getSubstituteHolidayInfo_found toLunar fuel y m d holidayList s Es)
          as [-> Hord].
        { intros E0. rewrite E0 in Et. discriminate. }
        auto.
      * right. injection Hc as <-. auto.
    + left. rewrite classifyWith_lunar_only in Hc by assumption.
      injection Hc as <-. auto.
  - left. exists first, rest.
    destruct (classifyWith_seeded fuel holidayList y m d first rest Hseed)
      as (c' & Hc' & Hname & Htype & Hnames).
    rewrite Hc in Hc'. injection Hc' as <-. auto.
Qed.

Lemma seedEntries_In (y m d : Z) holidayList (h : Holiday) :
  In h (seedEntries toLunar y m d holidayList) <->
  In h holidayList /\ contributes toLunar y m d (mkDate y (m - 1) d) h = true.
Proof. unfold seedEntries. apply filter_In. Qed.

Lemma contributes_true (y m d : Z) (t : Date) (h : Holiday) :
  contributes toLunar y m d t h = true <->
  h_date h = t /\ includes (h_name h) ConstitutionDay = false /\
  (includes (h_name h) Chuseok = true -> lunarNinthMonthSpan toLunar y m d = false).
Proof.
  unfold contributes.
  rewrite !andb_true_iff, !negb_true_iff, sameDateString_eq, andb_false_iff.
  destruct (includes (h_name h) Chuseok); intuition congruence.
Qed.

Lemma sourceType_substitute (h : Holiday) :
  sourceType h = TSubstitute <-> h_substitute h = Some true.
Proof.
  unfold sourceType.
  destruct (h_substitute h) as [[|]|]; simpl;
    repeat match goal with |- context [if ?b then _ else _] => destruct b end;
    split; congruence.
Qed.

Lemma sourceHolidaysOn_nil (t : Date) holidayList :
  sourceHolidaysOn t holidayList = [] <->
  forall h, In h holidayList -> h_date h = t ->
            includes (h_name h) ConstitutionDay = true.
Proof.
  induction holidayList as [|e rest IH]; simpl; [split; [contradiction | reflexivity]|].
  destruct (sameDateString (h_date e) t) eqn:Ed.
  - apply sameDateString_eq in Ed.
    destruct (includes (h_name e) ConstitutionDay) eqn:Ec.
    + rewrite IH. split.
      * intros H h [<-|Hin] Hd; auto.
      * intros H h Hin. apply H. now right.
    + split; [discriminate|]. intros H.
      rewrite (H e (or_introl eq_refl) Ed) in Ec. discriminate.
  - assert (h_date e <> t) by (intros E; apply sameDateString_eq in E; congruence).
    rewrite IH. split.
    + intros H' h [<-|Hin] Hd; [contradiction | auto].
    + intros H' h Hin. apply H'. now right.
Qed.

Lemma holidaysOnDate_nil (t : Date) holidayList :
  holidaysOnDate toLunar t holidayList = [] <->
  sourceHolidaysOn t holidayList = [] /\ hi_name (lunarInfoOf toLunar t) = "".
Proof.
  unfold holidaysOnDate. split.
  - intros H. apply app_eq_nil in H as [Hs Hl]. split; [assumption|].
    destruct (truthy _) eqn:E; [discriminate | now apply truthy_false].
  - intros [-> Hl]. rewrite Hl. reflexivity.
Qed.

(** C3, as the code has it.  A date whose classification has type
    substitute either takes that type from the source, its first
    contributing entry being flagged as a substitute day, or is named by
    the rule engine alone, and then it falls Monday to Friday, every
    source entry of the day is a Constitution Day entry, and the day
    carries no lunar-span holiday. *)
Theorem substitute_type_origin (fuel : nat) holidayList (y m d : Z) (c : AllHolidayInfo) :
  classifyWith toLunar fuel holidayList y m d = Some c ->
  a_type c = TSubstitute ->
  let t := mkDate y (m - 1) d in
  (exists first rest,
      seedEntries toLunar y m d holidayList = first :: rest /\
      h_substitute first = Some true /\ h_date first = t) \/
  (a_names c = [SubstituteHoliday] /\
   1 <= getDay t <= 5 /\
   (forall h, In h holidayList -> h_date h = t ->
              includes (h_name h) ConstitutionDay = true) /\
   hi_name (lunarInfoOf toLunar t) = "").
Proof.
  intros Hc Hty t.
  destruct (classifyWith_cases fuel holidayList y m d c Hc)
    as [(first & rest & Hseed & _ & Htype & _)
       |[(_ & Hn & ->)|[(_ & _ & -> & Hord)|(_ & _ & ->)]]].
  - left. exists first, rest. split; [assumption|]. split.
    + apply sourceType_substitute. congruence.
    + assert (Hin : In first (seedEntries toLunar y m d holidayList))
        by (rewrite Hseed; now left).
      apply seedEntries_In in Hin as [_ Hin]. now apply contributes_true in Hin.
  - exfalso. simpl in Hty.
    pose proof (getLunarHolidayInfo_names toLunar y m d) as Hnames. simpl in Hnames.
    destruct Hnames as [[_ E]|[[_ E]|[[_ E]|[[_ E]|E]]]]; try congruence.
    rewrite E in Hty. discriminate.
  - right. destruct Hord as [Hd He]. apply holidaysOnDate_nil in He as [Hs Hl].
    split; [reflexivity|]. split; [exact Hd|]. split; [|exact Hl].
    now apply sourceHolidaysOn_nil.
  - discriminate.
Qed.

Lemma sourceType_claimed (h : Holiday) :
  sourceType h =
  if negb (default false (h_substitute h)) && negb (includes (h_name h) Seollal) &&
     includes (h_name h) NewYearsDay
  then TLunarNewYear else Spec.claimedSeedType h.
Proof.
  unfold sourceType, Spec.claimedSeedType.
  destruct (default false (h_substitute h)); [reflexivity|].
  destruct (includes (h_name h) Seollal); [reflexivity|].
  destruct (includes (h_name h) NewYearsDay); reflexivity.
Qed.

(** C4, as the code has it.  [getAllHolidayInfo] composes its sources in
    this order.  With a contributing source entry, the first of them
    names the day and sets the type: substitute if it is flagged so by the
    source, else lunar new year if its name holds 설날 or 신정, else
    chuseok if it holds 추석, else normal; the lunar-span name joins the
    names only if no name of its family is among those of the source.
    With none, a lunar-span holiday alone names and types the day.  Only
    when both are missing is the substitute search run, and its name and
    type are the result. *)
Theorem aggregator_composition (fuel : nat) holidayList (y m d : Z) :
  let seed := seedEntries toLunar y m d holidayList in
  let lunar := getLunarHolidayInfo toLunar y m d in
  let result := classifyWith toLunar fuel holidayList y m d in
  (forall first rest, seed = first :: rest ->
     exists c, result = Some c /\
       a_name c = h_name first /\
       a_type c =
         (if negb (default false (h_substitute first)) &&
             negb (includes (h_name first) Seollal) &&
             includes (h_name first) NewYearsDay
          then TLunarNewYear else Spec.claimedSeedType first) /\
       forall n, In n (a_names c) <->
                 In n (map h_name seed) \/
                 (n = hi_name lunar /\ n <> "" /\
                  similarIn (map h_name seed) (hi_name lunar) = false)) /\
  (seed = [] -> hi_name lunar <> "" ->
   result = Some {| a_name := hi_name lunar; a_names := [hi_name lunar];
                    a_type := hi_type lunar |}) /\
  (seed = [] -> hi_name lunar = "" ->
   result =
   match getSubstituteHolidayInfo toLunar fuel y m d holidayList with
   | None => None
   | Some substituteInfo =>
       if truthy (hi_name substituteInfo)
       then Some {| a_name := hi_name substituteInfo;
                    a_names := [hi_name substituteInfo];
                    a_type := hi_type substituteInfo |}
       else Some emptyClassification
   end) /\
  (seed = [] -> hi_name lunar = "" -> (7 <= fuel)%nat ->
   result = Some {| a_name := SubstituteHoliday; a_names := [SubstituteHoliday];
                    a_type := TSubstitute |} \/
   result = Some emptyClassification).
Proof.
  intros seed lunar result. unfold seed, lunar, result.
  split; [|split; [|split]].
  - intros first rest Hseed.
    destruct (classifyWith_seeded fuel holidayList y m d first rest Hseed)
      as (c & Hc & Hname & Htype & Hnames).
    exists c. rewrite <- sourceType_claimed, Hseed. auto.
  - intros Hseed Hn. now apply classifyWith_lunar_only.
  - intros Hseed Hn. now apply classifyWith_unseeded.
  - intros Hseed Hn Hfuel. rewrite classifyWith_unseeded by assumption.
    destruct (getSubstituteHolidayInfo_total toLunar fuel y m d holidayList Hfuel)
      as [-> | ->]; simpl; auto.
Qed.

(** *** The misdated Harvest Festival *)

Lemma lunarNinthMonthSpan_true (y m d : Z) :
  lunarNinthMonthSpan toLunar y m d = true <->
  exists l, toLunar y m d = Some l /\ l_month l = 9 /\
            (l_day l = 14 \/ l_day l = 15 \/ l_day l = 16).
Proof.
  unfold lunarNinthMonthSpan. destruct (toLunar y m d) as [l|].
  - rewrite andb_true_iff, !orb_true_iff, !Z.eqb_eq. split.
    + intros [Hm Hd]. exists l. tauto.
    + intros (l' & [= <-] & Hm & Hd). tauto.
  - split; [discriminate | intros (l & [=] & _)].
Qed.

Lemma lunarNinthMonthSpan_lunar (y m d : Z) :
  lunarNinthMonthSpan toLunar y m d = true ->
  let lunar := getLunarHolidayInfo toLunar y m d in
  (hi_name lunar = SeollalHoliday \/ hi_name lunar = "") /\ hi_type lunar <> TChuseok.
Proof.
  intros H. apply lunarNinthMonthSpan_true in H as (l & Hl & Hm & _).
  unfold getLunarHolidayInfo. rewrite Hl, Hm. simpl.
  repeat match goal with |- context [if ?b then _ else _] => destruct b end;
    simpl; split; auto; discriminate.
Qed.

Lemma sourceType_chuseok (h : Holiday) :
  sourceType h = TChuseok -> includes (h_name h) Chuseok = true.
Proof.
  unfold sourceType.
  repeat match goal with |- context [if ?b then _ else _] => destruct b eqn:? end;
    congruence.
Qed.

(** C5, as the code has it.  On a date that converts to the 14th, 15th
    or 16th of the 9th lunar month, [getAllHolidayInfo] skips every source
    entry whose name holds 추석: no such entry contributes, no name of the
    classification holds 추석, and its type is not chuseok. *)
Theorem ninth_month_chuseok_skipped (fuel : nat) holidayList (y m d : Z)
  (l : LunarDate) (c : AllHolidayInfo) :
  toLunar y m d = Some l -> l_month l = 9 ->
  l_day l = 14 \/ l_day l = 15 \/ l_day l = 16 ->
  classifyWith toLunar fuel holidayList y m d = Some c ->
  (forall h, In h (seedEntries toLunar y m d holidayList) ->
             includes (h_name h) Chuseok = false) /\
  (forall n, In n (a_names c) -> includes n Chuseok = false) /\
  includes (a_name c) Chuseok = false /\
  a_type c <> TChuseok.
Proof.
  intros Hl Hm Hd Hc.
  assert (Hninth : lunarNinthMonthSpan toLunar y m d = true)
    by (apply lunarNinthMonthSpan_true; eauto).
  assert (Hseed : forall h, In h (seedEntries toLunar y m d holidayList) ->
                            includes (h_name h) Chuseok = false).
  { intros h Hin. apply seedEntries_In in Hin as [_ Hin].
    apply contributes_true in Hin as (_ & _ & Hin).
    destruct (includes (h_name h) Chuseok); [|reflexivity].
    specialize (Hin eq_refl). congruence. }
  split; [exact Hseed|].
  destruct (lunarNinthMonthSpan_lunar y m d Hninth) as [Hlname Hltype].
  assert (Hlunar : includes (hi_name (getLunarHolidayInfo toLunar y m d)) Chuseok = false)
    by (destruct Hlname as [-> | ->]; reflexivity).
  destruct (classifyWith_cases fuel holidayList y m d c Hc)
    as [(first & rest & Hs & Hname & Htype & Hnames)
       |[(_ & Hn & ->)|[(_ & _ & -> & _)|(_ & _ & ->)]]].
  - assert (Hfirst : In first (seedEntries toLunar y m d holidayList))
      by (rewrite Hs; now left).
    split; [|split].
    + intros n Hin. apply Hnames in Hin as [Hin|(-> & _)]; [|exact Hlunar].
      apply in_map_iff in Hin as (h & <- & Hin). now apply Hseed.
    + rewrite Hname. now apply Hseed.
    + rewrite Htype. intros E. apply sourceType_chuseok in E.
      rewrite (Hseed first Hfirst) in E. discriminate.
  - simpl. split; [|split]; auto.
    intros n [<-|[]]. exact Hlunar.
  - simpl. split; [|split]; try discriminate; auto.
    intros n [<-|[]]. reflexivity.
  - simpl. split; [|split]; try discriminate; auto. intros n [].
Qed.

(** *** The retired Constitution Day *)

Lemma sourceHolidaysOn_drop (t : Date) holidayList :
  sourceHolidaysOn t (dropConstitutionDay holidayList) = sourceHolidaysOn t holidayList.
Proof.
  induction holidayList as [|e rest IH]; simpl; [reflexivity|].
  destruct (includes (h_name e) ConstitutionDay) eqn:E; simpl; rewrite ?E, IH;
    now destruct (sameDateString _ _).
Qed.

Lemma isDateHoliday_loop_drop (t : Date) holidayList :
  isDateHoliday_loop t (dropConstitutionDay holidayList) = isDateHoliday_loop t holidayList.
Proof.
  induction holidayList as [|e rest IH]; simpl; [reflexivity|].
  destruct (includes (h_name e) ConstitutionDay) eqn:E; simpl; rewrite ?E, IH;
    now destruct (sameDateString _ _).
Qed.

Lemma holidaysOnDate_drop (t : Date) holidayList :
  holidaysOnDate toLunar t (dropConstitutionDay holidayList) =
  holidaysOnDate toLunar t holidayList.
Proof. unfold holidaysOnDate. now rewrite sourceHolidaysOn_drop. Qed.

Lemma isDateHoliday_drop (t : Date) holidayList :
  isDateHoliday toLunar t (dropConstitutionDay holidayList) =
  isDateHoliday toLunar t holidayList.
Proof. unfold isDateHoliday. now rewrite isDateHoliday_loop_drop. Qed.

Lemma findNextWorkday_loop_drop (fuel : nat) (t : Date) holidayList :
  findNextWorkday_loop toLunar fuel t (dropConstitutionDay holidayList) =
  findNextWorkday_loop toLunar fuel t holidayList.
Proof.
  revert t. induction fuel as [|fuel IH]; intros t; simpl; [reflexivity|].
  now rewrite isDateHoliday_drop, !IH.
Qed.

Lemma checkForSubstituteHoliday_drop (fuel : nat) (origin t : Date) holidayList :
  checkForSubstituteHoliday toLunar fuel origin t (dropConstitutionDay holidayList) =
  checkForSubstituteHoliday toLunar fuel origin t holidayList.
Proof.
  unfold checkForSubstituteHoliday, findNextWorkday.
  now rewrite holidaysOnDate_drop, findNextWorkday_loop_drop.
Qed.

Lemma lookBack_drop (fuel remaining : nat) (first : Z) (t : Date) holidayList :
  lookBack toLunar fuel remaining first t (dropConstitutionDay holidayList) =
  lookBack toLunar fuel remaining first t holidayList.
Proof.
  revert first. induction remaining as [|remaining IH]; intros first; simpl;
    [reflexivity|].
  now rewrite checkForSubstituteHoliday_drop, IH.
Qed.

Lemma getSubstituteHolidayInfo_drop (fuel : nat) (y m d : Z) holidayList :
  getSubstituteHolidayInfo toLunar fuel y m d (dropConstitutionDay holidayList) =
  getSubstituteHolidayInfo toLunar fuel y m d holidayList.
Proof.
  unfold getSubstituteHolidayInfo. now rewrite isDateHoliday_drop, lookBack_drop.
Qed.

Lemma collect_drop (y m d : Z) (t : Date) holidayList st :
  fold_left (collectStep toLunar y m d t) (dropConstitutionDay holidayList) st =
  fold_left (collectStep toLunar y m d t) holidayList st.
Proof.
  revert st. induction holidayList as [|e rest IH]; intros st; simpl; [reflexivity|].
  destruct (includes (h_name e) ConstitutionDay) eqn:E; simpl.
  - rewrite IH. f_equal. unfold collectStep. rewrite E.
    now destruct (sameDateString _ _).
  - apply IH.
Qed.

Lemma classifyWith_drop (fuel : nat) holidayList (y m d : Z) :
  classifyWith toLunar fuel (dropConstitutionDay holidayList) y m d =
  classifyWith toLunar fuel holidayList y m d.
Proof.
  unfold classifyWith. now rewrite collect_drop, getSubstituteHolidayInfo_drop.
Qed.

Lemma lunar_name_not_constitution (y m d : Z) :
  includes (hi_name (getLunarHolidayInfo toLunar y m d)) ConstitutionDay = false.
Proof.
  pose proof (getLunarHolidayInfo_names toLunar y m d) as H. simpl in H.
  destruct H as [[-> _]|[[-> _]|[[-> _]|[[-> _]| ->]]]]; reflexivity.
Qed.

(** C6. The Constitution Day entry of the source reaches no output: no
    name of a classification holds 제헌절, the classification, the holiday
    test of the substitute search and the holiday set of an origin are
    what they are for the source without its Constitution Day entries, and
    no holiday of an origin is named after it. *)
Theorem constitution_day_never_classified (fuel : nat) holidayList (y m d : Z) (t : Date) :
  let result := classifyWith toLunar fuel holidayList y m d in
  result = classifyWith toLunar fuel (dropConstitutionDay holidayList) y m d /\
  (forall c, result = Some c ->
     includes (a_name c) ConstitutionDay = false /\
     forall n, In n (a_names c) -> includes n ConstitutionDay = false) /\
  isDateHoliday toLunar t holidayList =
    isDateHoliday toLunar t (dropConstitutionDay holidayList) /\
  holidaysOnDate toLunar t holidayList =
    holidaysOnDate toLunar t (dropConstitutionDay holidayList) /\
  (forall h, In h (holidaysOnDate toLunar t holidayList) ->
     includes (th_name h) ConstitutionDay = false).
Proof.
  intros result. unfold result.
  split; [symmetry; apply classifyWith_drop|].
  split; [|split; [symmetry; apply isDateHoliday_drop|
           split; [symmetry; apply holidaysOnDate_drop|]]].
  - intros c Hc.
    assert (Hseed : forall h, In h (seedEntries toLunar y m d holidayList) ->
                              includes (h_name h) ConstitutionDay = false).
    { intros h Hin. apply seedEntries_In in Hin as [_ Hin].
      now apply contributes_true in Hin as (_ & Hin & _). }
    pose proof (lunar_name_not_constitution y m d) as Hlunar.
    destruct (classifyWith_cases fuel holidayList y m d c Hc)
      as [(first & rest & Hs & Hname & Htype & Hnames)
         |[(_ & Hn & ->)|[(_ & _ & -> & _)|(_ & _ & ->)]]].
    + split.
      * rewrite Hname. apply Hseed. rewrite Hs. now left.
      * intros n Hin. apply Hnames in Hin as [Hin|(-> & _)]; [|exact Hlunar].
        apply in_map_iff in Hin as (h & <- & Hin). now apply Hseed.
    + simpl. split; [exact Hlunar|]. intros n [<-|[]]. exact Hlunar.
    + simpl. split; [reflexivity|]. intros n [<-|[]]. reflexivity.
    + simpl. split; [reflexivity|]. intros n [].
  - intros h. unfold holidaysOnDate. rewrite in_app_iff. intros [Hin|Hin].
    + now apply sourceHolidaysOn_tagged in Hin.
    + destruct (truthy _); [|contradiction].
      destruct Hin as [<-|[]]. simpl. apply lunar_name_not_constitution.
Qed.

(** *** The holiday set of the search and the cleaned set *)

(** Where the source holds no Harvest Festival entry on a day outside the
    8th lunar month, the source holidays that the substitute search sees
    on a day are the cleaned entries of that day. *)
Lemma sourceHolidaysOn_cleaned (t : Date) holidayList :
  (forall h, In h holidayList ->
             Spec.claimedDropped toLunar h = includes (h_name h) ConstitutionDay) ->
  map th_name (sourceHolidaysOn t holidayList) =
  map h_name (Spec.cleanedOn toLunar t holidayList).
Proof.
  unfold Spec.cleanedOn.
  induction holidayList as [|e rest IH]; intros Hclean; simpl; [reflexivity|].
  rewrite (Hclean e (or_introl eq_refl)).
  assert (IH' := IH (fun h Hin => Hclean h (or_intror Hin))).
  destruct (sameDateString (h_date e) t); simpl; [|exact IH'].
  destruct (includes (h_name e) ConstitutionDay); simpl; [exact IH'|].
  now rewrite IH'.
Qed.

End Aggregator.

Lemma flagged_saturday_is_substitute :
  classifyWith Samples.toLunar 7 Samples.flaggedSaturday 2025 3 1 =
    Some {| a_name := SubstituteHoliday; a_names := [SubstituteHoliday];
            a_type := TSubstitute |} /\
  getDay (mkDate 2025 2 1) = 6 /\
  In Samples.flaggedEntry Samples.flaggedSaturday /\
  h_date Samples.flaggedEntry = mkDate 2025 2 1 /\
  Spec.claimedDropped Samples.toLunar Samples.flaggedEntry = false.
Proof.
  split; [vm_compute; reflexivity|]. split; [reflexivity|].
  split; [now left|]. split; reflexivity.
Qed.

Lemma substitute_type_origin_witness :
  classifyWith Samples.toLunar 7 Samples.holidays2025 2025 3 3 =
    Some {| a_name := SubstituteHoliday; a_names := [SubstituteHoliday];
            a_type := TSubstitute |} /\
  1 <= getDay (mkDate 2025 2 3) <= 5 /\
  hi_name (lunarInfoOf Samples.toLunar (mkDate 2025 2 3)) = "".
Proof.
  assert (Hc : classifyWith Samples.toLunar 7 Samples.holidays2025 2025 3 3 =
               Some {| a_name := SubstituteHoliday; a_names := [SubstituteHoliday];
                       a_type := TSubstitute |}) by (vm_compute; reflexivity).
  split; [exact Hc|].
  destruct (substitute_type_origin Samples.toLunar 7 Samples.holidays2025 2025 3 3 _
              Hc eq_refl) as [(first & rest & Hseed & _)|(_ & Hd & _ & Hl)].
  - vm_compute in Hseed. discriminate.
  - split; assumption.
Defined.

Lemma new_years_day_is_lunar_new_year :
  seedEntries Samples.toLunar 2025 1 1 Samples.holidays2025 = [Samples.entry 1 1 NewYearsDay] /\
  h_substitute (Samples.entry 1 1 NewYearsDay) = None /\
  includes NewYearsDay Seollal = false /\
  includes NewYearsDay Chuseok = false /\
  Spec.claimedSeedType (Samples.entry 1 1 NewYearsDay) = TNormal /\
  classifyWith Samples.toLunar 7 Samples.holidays2025 2025 1 1 =
    Some {| a_name := NewYearsDay; a_names := [NewYearsDay]; a_type := TLunarNewYear |}.
Proof. repeat split; vm_compute; reflexivity. Qed.

Lemma seventh_month_chuseok_is_kept :
  Samples.toLunar 2025 9 6 =
    Some {| l_year := 2025; l_month := 7; l_day := 15; intercalation := false |} /\
  Spec.claimedDropped Samples.toLunar (Samples.entry 9 6 Chuseok) = true /\
  classifyWith Samples.toLunar 7 Samples.misdatedChuseok 2025 9 6 =
    Some {| a_name := Chuseok; a_names := [Chuseok]; a_type := TChuseok |} /\
  isDateHoliday Samples.toLunar (mkDate 2025 8 6) Samples.misdatedChuseok = true.
Proof. repeat split; vm_compute; reflexivity. Qed.

Lemma ninth_month_chuseok_skipped_witness :
  Samples.toLunar 2025 11 4 =
    Some {| l_year := 2025; l_month := 9; l_day := 15; intercalation := false |} /\
  classifyWith Samples.toLunar 7 Samples.ninthMonthChuseok 2025 11 4 =
    Some emptyClassification /\
  forall h, In h (seedEntries Samples.toLunar 2025 11 4 Samples.ninthMonthChuseok) ->
            includes (h_name h) Chuseok = false.
Proof.
  assert (Hc : classifyWith Samples.toLunar 7 Samples.ninthMonthChuseok 2025 11 4 =
               Some emptyClassification) by (vm_compute; reflexivity).
  split; [reflexivity|]. split; [exact Hc|].
  exact (proj1 (ninth_month_chuseok_skipped Samples.toLunar 7 Samples.ninthMonthChuseok
                  2025 11 4 _ _ eq_refl eq_refl (or_intror (or_introl eq_refl)) Hc)).
Defined.

(** The holiday test of the substitute search has no such filter: the
    entry that [getAllHolidayInfo] skips on 2025-11-04 still makes that
    day a holiday there. *)
Example ninth_month_chuseok_in_holiday_test :
  isDateHoliday Samples.toLunar (mkDate 2025 10 4) Samples.ninthMonthChuseok = true /\
  holidaysOnDate Samples.toLunar (mkDate 2025 10 4) Samples.ninthMonthChuseok =
    [ {| th_name := Chuseok; th_type := SundayOnly |} ].
Proof. split; vm_compute; reflexivity. Qed.

End AggregatorFacts.

(** ** The two entry points and their caches *)
Module ApiFacts.
Import JsString JsDate Names Calendar JsDateFacts JsStringFacts.
Import LunarFacts SubstituteFacts AggregatorFacts.

Section Api.

Variable toLunar : Z -> Z -> Z -> option LunarDate.
Variable getHolidays : Z -> option (list Holiday).

Implicit Types (holidayCache : gmap Z (list Holiday)) (holidayList : list Holiday).

Lemma holidayCacheOk_empty : holidayCacheOk getHolidays ∅.
Proof. intros y l H. rewrite lookup_empty in H. discriminate. Qed.

Lemma getAllHolidayInfo_ok (fuel : nat) holidayCache (y m d : Z) :
  holidayCacheOk getHolidays holidayCache ->
  holidayCacheOk getHolidays (fst (getAllHolidayInfo toLunar getHolidays fuel holidayCache y m d)).
Proof.
  intros Hok. unfold getAllHolidayInfo.
  destruct (holidayCache !! y) as [l|] eqn:E; [exact Hok|].
  destruct (getHolidays y) as [l|] eqn:Eg; [|exact Hok].
  simpl. intros y' l' H.
  destruct (decide (y = y')) as [<-|Hne].
  - rewrite lookup_insert_eq in H. congruence.
  - rewrite lookup_insert_ne in H by assumption. now apply Hok.
Qed.



(** *** What a triple is read for

    A triple reaches the classification through the day that the [Date]
    constructor makes of it and through the answer of the converter to
    the triple itself, and through nothing else. *)





End Api.

(** C10. The classification of a date of year [y] reads the holiday
    source at [y] only: two sources that agree on [y], each behind a cache
    filled from it, give every triple of year [y] the same outcome,
    whatever they report for other years, the years the look-back and the
    walk to the next workday reach included. *)
Theorem classification_reads_own_year (toLunar : Z -> Z -> Z -> option LunarDate)
  (source1 source2 : Z -> option (list Holiday)) (fuel : nat)
  (cache1 cache2 : gmap Z (list Holiday)) (y m d : Z) :
  holidayCacheOk source1 cache1 ->
  holidayCacheOk source2 cache2 ->
  source1 y = source2 y ->
  snd (getAllHolidayInfo toLunar source1 fuel cache1 y m d) =
  snd (getAllHolidayInfo toLunar source2 fuel cache2 y m d).
Proof.
  intros Hok1 Hok2 Hsame. unfold getAllHolidayInfo.
  destruct (cache1 !! y) as [l1|] eqn:E1, (cache2 !! y) as [l2|] eqn:E2.
  - apply Hok1 in E1. apply Hok2 in E2. simpl. congruence.
  - apply Hok1 in E1. rewrite <- Hsame, E1. reflexivity.
  - apply Hok2 in E2. rewrite Hsame, E2. reflexivity.
  - rewrite Hsame. now destruct (source2 y).
Qed.

Lemma classification_reads_own_year_witness :
  holidayCacheOk Samples.getHolidays ∅ /\
  holidayCacheOk Samples.getHolidaysOtherwise ∅ /\
  Samples.getHolidays 2025 = Samples.getHolidaysOtherwise 2025 /\
  Samples.getHolidays 2024 <> Samples.getHolidaysOtherwise 2024 /\
  snd (getAllHolidayInfo Samples.toLunar Samples.getHolidays 7 ∅ 2025 1 2) =
  snd (getAllHolidayInfo Samples.toLunar Samples.getHolidaysOtherwise 7 ∅ 2025 1 2).
Proof.
  split; [apply holidayCacheOk_empty|]. split; [apply holidayCacheOk_empty|].
  split; [reflexivity|]. split; [discriminate|].
  apply classification_reads_own_year;
    [apply holidayCacheOk_empty | apply holidayCacheOk_empty | reflexivity].
Defined.


(** A source that throws is what makes [getAllHolidayInfo] throw, on a
    calendar date as on any other triple. *)
Example source_failure_propagates :
  getAllHolidayInfo Samples.toLunar Samples.getHolidaysFailing 7 ∅ 2025 3 1 = (∅, Thrown).
Proof. reflexivity. Qed.

(** A triple is not classified as the calendar date it stands for.  The
    36th of September 2025 is the 6th of October, the Harvest Festival,
    which the lunar rules find on the date and not on the triple the
    converter rejects; the 1st of the 13th month of 2024 is New Year's
    Day 2025, which is in the holiday list of 2025 and not in that of
    2024. *)
Example triple_is_not_its_calendar_date :
  mkDate 2025 (9 - 1) 36 = mkDate 2025 (10 - 1) 6 /\
  classifyWith Samples.toLunar 7 [] 2025 9 36 = Some emptyClassification /\
  classifyWith Samples.toLunar 7 [] 2025 10 6 =
    Some {| a_name := "추석"; a_names := ["추석"]; a_type := TChuseok |} /\
  mkDate 2024 (13 - 1) 1 = mkDate 2025 (1 - 1) 1 /\
  snd (getAllHolidayInfo Samples.toLunar Samples.getHolidays 7 ∅ 2024 13 1) =
    Returned emptyClassification /\
  snd (getAllHolidayInfo Samples.toLunar Samples.getHolidays 7 ∅ 2025 1 1) =
    Returned {| a_name := "신정"; a_names := ["신정"]; a_type := TLunarNewYear |}.
Proof. repeat split; vm_compute; reflexivity. Qed.


End ApiFacts.

(** ** The expectations of the repository's tests, on the sample year

    [test/holiday-logic.test.js] and [test/Calendar.test.ts] state what the
    component answers for 2025; the embedding answers the same on the
    sample converter and holiday list. *)
Module TestExpectations.
Import JsString JsDate Names Calendar.

Example seollal_span_2025 :
  map (fun d => hi_name (getLunarHolidayInfo Samples.toLunar 2025 1 d)) [28; 29; 30; 31] =
  [SeollalHoliday; Seollal; SeollalHoliday; ""].
Proof. vm_compute. reflexivity. Qed.

Example substitute_days_2025 :
  map (fun md => getSubstituteHolidayInfo Samples.toLunar 7 2025 (fst md) (snd md)
                   Samples.holidays2025)
      [(3, 3); (5, 6); (10, 8)] =
  [Some substituteFound; Some substituteFound; Some substituteFound].
Proof. vm_compute. reflexivity. Qed.

Example ordinary_days_2025 :
  map (fun md => getSubstituteHolidayInfo Samples.toLunar 7 2025 (fst md) (snd md)
                   Samples.holidays2025)
      [(4, 15); (3, 2); (5, 5); (1, 31)] =
  [Some noLunarHoliday; Some noLunarHoliday; Some noLunarHoliday; Some noLunarHoliday].
Proof. vm_compute. reflexivity. Qed.

Example constitution_day_2025 :
  classifyWith Samples.toLunar 7 Samples.holidays2025 2025 7 17 = Some emptyClassification.
Proof. vm_compute. reflexivity. Qed.

End TestExpectations.

(** ** More of the date model: months *)
Module MonthFacts.
Import JsDate JsDateFacts.

Lemma MakeDay_shift (y mi d k : Z) : MakeDay y mi (d + k) = MakeDay y mi d + k.
Proof. unfold MakeDay. lia. Qed.

(** A month index outside 0..11 carries into the year. *)
Lemma MakeDay_carry (y mi d : Z) : MakeDay y mi d = MakeDay (y + mi / 12) (mi mod 12) d.
Proof.
  unfold MakeDay.
  pose proof (Z.mod_pos_bound mi 12 ltac:(lia)) as Hm.
  rewrite (Z.div_small (mi mod 12) 12), (Z.mod_small (mi mod 12) 12), Z.add_0_r by lia.
  reflexivity.
Qed.

Lemma monthStart_next (leap m : Z) :
  1 <= m <= 11 ->
  monthStart leap m =
  monthStart leap (m - 1) + match m with 2 => 28 + leap | 4 | 6 | 9 | 11 => 30 | _ => 31 end.
Proof.
  intros Hm.
  assert (H : m = 1 \/ m = 2 \/ m = 3 \/ m = 4 \/ m = 5 \/ m = 6 \/ m = 7 \/
              m = 8 \/ m = 9 \/ m = 10 \/ m = 11) by lia.
  repeat (destruct H as [->|H]; [simpl; lia|]). subst m. simpl. lia.
Qed.

(** The getters read back a calendar date, in whatever year. *)
Lemma civil_MakeDay (y m d : Z) :
  1 <= m <= 12 -> 1 <= d <= daysInMonth y m ->
  YearFromTime (MakeDay y (m - 1) d) = y /\
  MonthFromTime (MakeDay y (m - 1) d) = m - 1 /\
  DateFromTime (MakeDay y (m - 1) d) = d.
Proof.
  intros Hm Hd. unfold MakeDay.
  rewrite (Z.div_small (m - 1) 12), (Z.mod_small (m - 1) 12), Z.add_0_r by lia.
  pose proof (DayFromYear_step y) as Hstep.
  pose proof (leapDay_cases y) as Hleap.
  set (t := DayFromYear y + monthStart (leapDay y) (m - 1) + d - 1).
  assert (Hcases : m = 1 \/ m = 2 \/ m = 3 \/ m = 4 \/ m = 5 \/ m = 6 \/ m = 7 \/
                   m = 8 \/ m = 9 \/ m = 10 \/ m = 11 \/ m = 12) by lia.
  assert (Hyear : YearFromTime t = y).
  { apply YearFromTime_unique. rewrite Hstep. unfold t.
    repeat (destruct Hcases as [->|Hcases]; [simpl in *; lia|]);
      subst m; simpl in *; lia. }
  unfold DateFromTime, MonthFromTime, InLeapYear, DayWithinYear.
  rewrite Hyear. split; [reflexivity|].
  unfold t.
  repeat (destruct Hcases as [->|Hcases];
    [simpl in *;
     repeat match goal with |- context [if ?a <? ?b then _ else _] =>
       destruct (Z.ltb_spec a b); try lia end; simpl; lia|]).
  subst m; simpl in *.
  repeat match goal with |- context [if ?a <? ?b then _ else _] =>
    destruct (Z.ltb_spec a b); try lia end; simpl; lia.
Qed.

Lemma daysInMonth_range (y m : Z) : 28 <= daysInMonth y m <= 31.
Proof.
  unfold daysInMonth. pose proof (leapDay_cases y).
  destruct m as [|p|p]; try lia.
  do 4 (destruct p; try lia).
Qed.

(** The first day of month index [mi] of year [y], seen through the
    getters. *)
Lemma civil_first_of_month (y mi : Z) :
  let t := MakeDay y mi 1 in
  YearFromTime t = y + mi / 12 /\ MonthFromTime t = mi mod 12 /\ DateFromTime t = 1.
Proof.
  intros t. unfold t. rewrite MakeDay_carry.
  pose proof (Z.mod_pos_bound mi 12 ltac:(lia)) as Hm.
  pose proof (daysInMonth_range (y + mi / 12) (mi mod 12 + 1)) as Hd.
  destruct (civil_MakeDay (y + mi / 12) (mi mod 12 + 1) 1) as (Hy & Hmo & Hda);
    try lia.
  replace (mi mod 12 + 1 - 1) with (mi mod 12) in * by lia. auto.
Qed.

(** Day 0 of the next month is the last day of the month. *)
Lemma MakeDay_day_zero (y mi : Z) :
  0 <= mi <= 11 -> MakeDay y (mi + 1) 0 = MakeDay y mi (daysInMonth y (mi + 1)).
Proof.
  intros Hm. destruct (decide (mi = 11)) as [->|Hne].
  - unfold MakeDay. simpl.
    replace (y + 1 + 0) with (y + 1) by lia. rewrite !Z.add_0_r.
    rewrite DayFromYear_step. pose proof (leapDay_cases y). simpl. lia.
  - unfold MakeDay.
    rewrite (Z.div_small (mi + 1) 12), (Z.mod_small (mi + 1) 12) by lia.
    rewrite (Z.div_small mi 12), (Z.mod_small mi 12), !Z.add_0_r by lia.
    pose proof (monthStart_next (leapDay y) (mi + 1) ltac:(lia)) as Hs.
    replace (mi + 1 - 1) with mi in Hs by lia.
    unfold daysInMonth. rewrite Hs. lia.
Qed.

Lemma WeekDay_shift (t k : Z) : WeekDay (t + k) = (WeekDay t + k) mod 7.
Proof. unfold WeekDay. rewrite Zplus_mod_idemp_l. f_equal. lia. Qed.

Lemma WeekDay_range (t : Z) : 0 <= WeekDay t <= 6.
Proof. unfold WeekDay. pose proof (Z.mod_pos_bound (t + 4) 7). lia. Qed.

Lemma DayWithinYear_range (t : Z) :
  0 <= DayWithinYear t < 365 + leapDay (YearFromTime t).
Proof.
  unfold DayWithinYear. pose proof (YearFromTime_spec t) as Hs.
  rewrite DayFromYear_step in Hs. pose proof (leapDay_cases (YearFromTime t)). lia.
Qed.

(** A day of month is between 1 and 31, for every [Date]. *)
Lemma DateFromTime_range (t : Z) : 1 <= DateFromTime t <= 31.
Proof.
  pose proof (DayWithinYear_range t) as Hr.
  pose proof (leapDay_cases (YearFromTime t)) as Hl.
  unfold DateFromTime, MonthFromTime, InLeapYear.
  repeat match goal with |- context [if ?a <? ?b then _ else _] =>
    destruct (Z.ltb_spec a b) end; simpl; lia.
Qed.

End MonthFacts.
